(** * LibplaceboFilter: the libplacebo filter session of video2x

    A shallow embedding of [src/libplacebo_filter.cpp].  The session object
    is a record, the FFmpeg library it drives is an explicit external state
    (frame heap, call log, call counters) whose answers come from an oracle,
    and every member function is a computation in a small state-and-abort
    monad over the pair (session, library state). *)

From Stdlib Require Import ZArith Lia List String Ascii.
From stdpp Require Import base gmap strings list.

Local Open Scope Z_scope.

(** ** C data *)

(** Pointers are addresses; [nullptr] is address 0. *)
Definition nullptr : Z := 0.

(** Width of a pointer on the LP64 targets the program is built for. *)
Definition ptr_bits : Z := 64.

(** An integer converted to a pointer, as in the cast [(AVFrame * )-1]. *)
Definition int_to_ptr (i : Z) : Z := i mod 2 ^ ptr_bits.

(** [(AVFrame * )-1], returned by [process_frame] when no frame is ready. *)
Definition PTR_MINUS_ONE : Z := int_to_ptr (-1).

(** libavutil/error.h and errno.h (Linux values). *)
Definition MKTAG (a b c d : Z) : Z :=
  Z.lor a (Z.lor (Z.shiftl b 8) (Z.lor (Z.shiftl c 16) (Z.shiftl d 24))).
Definition FFERRTAG (a b c d : Z) : Z := - MKTAG a b c d.
Definition AVERROR (e : Z) : Z := - e.
Definition EAGAIN : Z := 11.
Definition ENOMEM : Z := 12.
(** [FFERRTAG('E','O','F',' ')] *)
Definition AVERROR_EOF : Z := FFERRTAG 69 79 70 32.

Record AVRational := { num : Z; den : Z }.

(** The part of an [AVFrame] the filter can observe: its presentation
    timestamp, and the picture it carries (an opaque identity). *)
Record AVFrame := { pts : Z; picture : Z }.

(** [AV_NOPTS_VALUE], the timestamp of a frame fresh from [av_frame_alloc]. *)
Definition AV_NOPTS_VALUE : Z := - 2 ^ 63.
Definition blank_frame : AVFrame := {| pts := AV_NOPTS_VALUE; picture := 0 |}.

Record AVCodecContext := { time_base : AVRational }.

(** ** The session object *)

Record LibplaceboFilter := {
  filter_graph : Z;
  buffersrc_ctx : Z;
  buffersink_ctx : Z;
  device_ctx : Z;
  output_width : Z;
  output_height : Z;
  shader_path : string;
  output_time_base : AVRational
}.

Definition set_filter_graph (v : Z) (f : LibplaceboFilter) : LibplaceboFilter :=
  {| filter_graph := v; buffersrc_ctx := buffersrc_ctx f;
     buffersink_ctx := buffersink_ctx f; device_ctx := device_ctx f;
     output_width := output_width f; output_height := output_height f;
     shader_path := shader_path f; output_time_base := output_time_base f |}.
Definition set_buffersrc_ctx (v : Z) (f : LibplaceboFilter) : LibplaceboFilter :=
  {| filter_graph := filter_graph f; buffersrc_ctx := v;
     buffersink_ctx := buffersink_ctx f; device_ctx := device_ctx f;
     output_width := output_width f; output_height := output_height f;
     shader_path := shader_path f; output_time_base := output_time_base f |}.
Definition set_buffersink_ctx (v : Z) (f : LibplaceboFilter) : LibplaceboFilter :=
  {| filter_graph := filter_graph f; buffersrc_ctx := buffersrc_ctx f;
     buffersink_ctx := v; device_ctx := device_ctx f;
     output_width := output_width f; output_height := output_height f;
     shader_path := shader_path f; output_time_base := output_time_base f |}.
Definition set_device_ctx (v : Z) (f : LibplaceboFilter) : LibplaceboFilter :=
  {| filter_graph := filter_graph f; buffersrc_ctx := buffersrc_ctx f;
     buffersink_ctx := buffersink_ctx f; device_ctx := v;
     output_width := output_width f; output_height := output_height f;
     shader_path := shader_path f; output_time_base := output_time_base f |}.
Definition set_output_time_base (v : AVRational) (f : LibplaceboFilter)
  : LibplaceboFilter :=
  {| filter_graph := filter_graph f; buffersrc_ctx := buffersrc_ctx f;
     buffersink_ctx := buffersink_ctx f; device_ctx := device_ctx f;
     output_width := output_width f; output_height := output_height f;
     shader_path := shader_path f; output_time_base := v |}.

(** ** The external library *)

(** One entry of the log of calls made into FFmpeg, the resource helpers
    and stderr, with the arguments passed and the value answered. *)
Inductive Call :=
| Call_av_frame_alloc (ret : Z)
| Call_av_frame_free (frame : Z)
| Call_av_buffersrc_add_frame (ctx frame ret : Z)
| Call_av_buffersink_get_frame (ctx frame ret : Z)
| Call_avfilter_free (ctx : Z)
| Call_av_buffer_unref (ref : Z)
| Call_avfilter_graph_free (graph : Z)
| Call_find_resource_file (path : string)
| Call_init_libplacebo (width height : Z) (shader : string) (ret : Z)
| Call_fprintf_stderr (msg : string).

(** What the pipeline builder answers: four bound handles (graph, source
    endpoint, sink endpoint, device) or an error code. *)
Inductive Built :=
| BuildOk (graph src sink dev : Z)
| BuildErr (code : Z).

(** The answers of the world outside the session.  The n-th call of a
    function gets the n-th answer, so that any run of the external code
    is some oracle.  [buffersrc_add_leaves n f] is what the n-th submission,
    when it is accepted, leaves in the caller's frame that held [f]: the
    source takes the references over and resets a reference-counted
    frame. *)
Record Extern := {
  frame_alloc_ans : nat -> Z;
  buffersrc_add_ans : nat -> Z;
  buffersrc_add_leaves : nat -> AVFrame -> AVFrame;
  buffersink_get_ans : nat -> Z * AVFrame;
  strerror_ans : Z -> string;
  link_time_base : Z -> AVRational;
  fs_readable : string -> bool;
  fs_locate : string -> option string;
  build_ans : AVCodecContext -> Z -> Z -> string -> Built
}.

(** The mutable state of the library: how many calls each oracle has
    answered, the frame containers that are allocated and not yet freed,
    and the log of calls. *)
Record Libav := {
  n_alloc : nat;
  n_srcadd : nat;
  n_sinkget : nat;
  frames : gmap Z AVFrame;
  trace : list Call
}.

Record St := { self : LibplaceboFilter; av : Libav }.

(** ** The monad *)

Inductive Abort :=
| Exception (what : string)
| BadDeref (p : Z)
| OutOfFuel.

Inductive Res (A : Type) :=
| Done (a : A)
| Stop (why : Abort).
Arguments Done {A} a.
Arguments Stop {A} why.

Definition M (A : Type) : Type := St -> Res A * St.

Definition ret {A} (a : A) : M A := fun s => (Done a, s).
Definition bind {A B} (c : M A) (k : A -> M B) : M B :=
  fun s => match c s with
           | (Done a, s') => k a s'
           | (Stop why, s') => (Stop why, s')
           end.
Definition abort {A} (why : Abort) : M A := fun s => (Stop why, s).

#[global] Instance M_ret : MRet M := @ret.
#[global] Instance M_bind : MBind M := fun A B k c => bind c k.

Definition field {A} (proj : LibplaceboFilter -> A) : M A :=
  fun s => (Done (proj (self s)), s).
Definition assign (upd : LibplaceboFilter -> LibplaceboFilter) : M unit :=
  fun s => (Done tt, {| self := upd (self s); av := av s |}).
Definition lift_av {A} (f : Libav -> A * Libav) : M A :=
  fun s => let (a, w) := f (av s) in (Done a, {| self := self s; av := w |}).

Definition log (c : Call) (w : Libav) : Libav :=
  {| n_alloc := n_alloc w; n_srcadd := n_srcadd w; n_sinkget := n_sinkget w;
     frames := frames w; trace := trace w ++ [c] |}.
Definition with_frames (h : gmap Z AVFrame) (w : Libav) : Libav :=
  {| n_alloc := n_alloc w; n_srcadd := n_srcadd w; n_sinkget := n_sinkget w;
     frames := h; trace := trace w |}.

Definition LF : string := String (ascii_of_nat 10) EmptyString.

Section Filter.

Variable lib : Extern.

(** *** FFmpeg entry points, answered by the oracle *)

(** [av_frame_alloc()]: a fresh container, or [nullptr] when out of memory. *)
Definition av_frame_alloc : M Z :=
  lift_av (fun w =>
    let p := frame_alloc_ans lib (n_alloc w) in
    (p, log (Call_av_frame_alloc p)
          {| n_alloc := S (n_alloc w); n_srcadd := n_srcadd w;
             n_sinkget := n_sinkget w;
             frames := if p =? nullptr then frames w
                       else <[p := blank_frame]> (frames w);
             trace := trace w |})).

(** [av_frame_free(&frame)]: releases the container; nothing on [nullptr]. *)
Definition av_frame_free (frame : Z) : M unit :=
  lift_av (fun w =>
    (tt, if frame =? nullptr then w
         else log (Call_av_frame_free frame)
                  (with_frames (delete frame (frames w)) w))).

(** The live frames once the n-th submission has accepted [frame]: the
    source has taken the frame over, and the caller's frame holds what the
    library left in it.  Nothing is taken for the end marker [nullptr]. *)
Definition take_frame (n : nat) (frame : Z) (h : gmap Z AVFrame)
    : gmap Z AVFrame :=
  if frame =? nullptr then h else alter (buffersrc_add_leaves lib n) frame h.

(** [av_buffersrc_add_frame(ctx, frame)]; [frame = nullptr] marks the end
    of the input.  On an error the frame handed over is not touched. *)
Definition av_buffersrc_add_frame (ctx frame : Z) : M Z :=
  lift_av (fun w =>
    let r := buffersrc_add_ans lib (n_srcadd w) in
    (r, log (Call_av_buffersrc_add_frame ctx frame r)
          {| n_alloc := n_alloc w; n_srcadd := S (n_srcadd w);
             n_sinkget := n_sinkget w;
             frames := if r <? 0 then frames w
                       else take_frame (n_srcadd w) frame (frames w);
             trace := trace w |})).

(** [av_buffersink_get_frame(ctx, frame)]: on a non-negative answer the
    pipeline's next frame has been moved into the container [frame]. *)
Definition av_buffersink_get_frame (ctx frame : Z) : M Z :=
  lift_av (fun w =>
    let r := (buffersink_get_ans lib (n_sinkget w)).1 in
    let f := (buffersink_get_ans lib (n_sinkget w)).2 in
    (r, log (Call_av_buffersink_get_frame ctx frame r)
          {| n_alloc := n_alloc w; n_srcadd := n_srcadd w;
             n_sinkget := S (n_sinkget w);
             frames := if r <? 0 then frames w else <[frame := f]> (frames w);
             trace := trace w |})).

Definition avfilter_free (ctx : Z) : M unit :=
  lift_av (fun w => (tt, log (Call_avfilter_free ctx) w)).
Definition av_buffer_unref (ref : Z) : M unit :=
  lift_av (fun w => (tt, log (Call_av_buffer_unref ref) w)).
Definition avfilter_graph_free (graph : Z) : M unit :=
  lift_av (fun w => (tt, log (Call_avfilter_graph_free graph) w)).
Definition av_strerror (errnum : Z) : M string :=
  ret (strerror_ans lib errnum).
Definition fprintf_stderr (msg : string) : M unit :=
  lift_av (fun w => (tt, log (Call_fprintf_stderr msg) w)).

(** [frame->pts] as an rvalue and as an lvalue; the container must be live. *)
Definition read_pts (frame : Z) : M Z :=
  fun s => match frames (av s) !! frame with
           | Some f => (Done (pts f), s)
           | None => (Stop (BadDeref frame), s)
           end.
Definition write_pts (frame : Z) (v : Z) : M unit :=
  fun s => match frames (av s) !! frame with
           | Some f =>
               (Done tt,
                {| self := self s;
                   av := with_frames
                           (<[frame := {| pts := v; picture := picture f |}]>
                              (frames (av s))) (av s) |})
           | None => (Stop (BadDeref frame), s)
           end.

(** [ctx->inputs[0]->time_base]; [ctx] must point to a filter context. *)
Definition inputs0_time_base (ctx : Z) : M AVRational :=
  if ctx =? nullptr then abort (BadDeref ctx) else ret (link_time_base lib ctx).

(** *** std::filesystem::path, POSIX flavour *)

(** [p.is_absolute()]: the path starts at the root directory. *)
Definition is_absolute (p : string) : bool :=
  match p with
  | String c _ => if Ascii.eqb c "/"%char then true else false
  | EmptyString => false
  end.

Fixpoint ends_with_slash (p : string) : bool :=
  match p with
  | EmptyString => false
  | String c EmptyString => Ascii.eqb c "/"%char
  | String _ rest => ends_with_slash rest
  end.

(** [p.has_filename()]: the last component is not empty. *)
Definition has_filename (p : string) : bool :=
  match p with
  | EmptyString => false
  | _ => negb (ends_with_slash p)
  end.

(** [a / b]: an absolute [b] replaces [a]; otherwise [b] is appended, after
    a separator when [a] ends in a file name. *)
Definition path_append (a b : string) : string :=
  if is_absolute b then b
  else if has_filename a then a +:+ "/" +:+ b
  else a +:+ b.

(** *** Collaborators declared in fsutils.h and libplacebo.h *)

(** Modelled from the spec: [filepath_is_readable] of fsutils.h, whose
    definition is not part of the sources.  It tells whether a path "names
    a readable file"; the file system is the oracle [fs_readable]. *)
Definition filepath_is_readable (p : string) : M bool :=
  ret (fs_readable lib p).

(** Modelled from the spec: [find_resource_file] of fsutils.h, whose
    definition is not part of the sources: the resource locator, which
    "given a relative path fragment, returns an absolute readable path or
    fails if not found".  Its result is assigned to a path, so failing is
    leaving by an exception.  The search is the oracle [fs_locate]. *)
Definition find_resource_file (p : string) : M string :=
  lift_av (fun w => (tt, log (Call_find_resource_file p) w));;
  match fs_locate lib p with
  | Some q => ret q
  | None => abort (Exception "find_resource_file")
  end.

(** Modelled from the spec: [init_libplacebo] of libplacebo.h, whose
    definition is not part of the sources: the pipeline builder, which
    "given decoder config, target dimensions, and a resolved shader path,
    returns bound graph/endpoint/device handles or fails", a failure
    leaving "no partially-owned handles" and returning a "build-failure
    code".  The handles are written through the four out-parameters, which
    point to the session's own fields. *)
Definition init_libplacebo (dec_ctx : AVCodecContext) (width height : Z)
    (shader : string) : M Z :=
  match build_ans lib dec_ctx width height shader with
  | BuildOk graph src sink dev =>
      assign (set_filter_graph graph);;
      assign (set_buffersrc_ctx src);;
      assign (set_buffersink_ctx sink);;
      assign (set_device_ctx dev);;
      lift_av (fun w =>
        (tt, log (Call_init_libplacebo width height shader 0) w));;
      ret 0
  | BuildErr code =>
      lift_av (fun w =>
        (tt, log (Call_init_libplacebo width height shader code) w));;
      ret code
  end.

(** Modelled from the spec: [av_rescale_q] of libavutil, not part of the
    sources: the "linear rational rescale
    pts' = pts * (srcNum/srcDen) / (dstNum/dstDen), exact-integer-safe",
    that is [a * bq / cq] computed on unbounded integers as
    [a * (bq.num * cq.den) / (cq.num * bq.den)].  A quotient that is not an
    integer is rounded to the nearest one, halves away from zero, which is
    the rounding libavutil documents for this function. *)
Definition av_rescale_q (a : Z) (bq cq : AVRational) : Z :=
  let b := num bq * den cq in
  let c := num cq * den bq in
  if 0 <=? a then (a * b + c / 2) / c
  else - ((- a * b + c / 2) / c).

(** *** Member functions *)

(** [LibplaceboFilter::LibplaceboFilter].  [output_time_base] has no
    initialiser: it starts with whatever value [garbage] the storage holds. *)
Definition LibplaceboFilter_ctor (width height : Z) (shader : string)
    (garbage : AVRational) : LibplaceboFilter :=
  {| filter_graph := nullptr;
     buffersrc_ctx := nullptr;
     buffersink_ctx := nullptr;
     device_ctx := nullptr;
     output_width := width;
     output_height := height;
     shader_path := shader;
     output_time_base := garbage |}.

(** [LibplaceboFilter::~LibplaceboFilter] *)
Definition LibplaceboFilter_dtor : M unit :=
  src ← field buffersrc_ctx;
  (if src =? nullptr then ret tt
   else avfilter_free src;; assign (set_buffersrc_ctx nullptr));;
  sink ← field buffersink_ctx;
  (if sink =? nullptr then ret tt
   else avfilter_free sink;; assign (set_buffersink_ctx nullptr));;
  dev ← field device_ctx;
  (if dev =? nullptr then ret tt
   else av_buffer_unref dev;; assign (set_device_ctx nullptr);;
        assign (set_device_ctx nullptr));;
  graph ← field filter_graph;
  (if graph =? nullptr then ret tt
   else avfilter_graph_free graph;; assign (set_filter_graph nullptr);;
        assign (set_filter_graph nullptr)).

(** [LibplaceboFilter::init] *)
Definition init (dec_ctx enc_ctx : AVCodecContext) : M Z :=
  shader ← field shader_path;
  readable ← filepath_is_readable shader;
  shader_full_path ←
    (if readable : bool then ret shader
     else find_resource_file (path_append "models" (shader +:+ ".glsl")));
  assign (set_output_time_base (time_base enc_ctx));;
  width ← field output_width;
  height ← field output_height;
  init_libplacebo dec_ctx width height shader_full_path.

(** [LibplaceboFilter::process_frame] *)
Definition process_frame (input_frame : Z) : M Z :=
  output_frame ← av_frame_alloc;
  if output_frame =? nullptr then
    fprintf_stderr ("Failed to allocate output frame" +:+ LF);;
    ret nullptr
  else
    src ← field buffersrc_ctx;
    r ← av_buffersrc_add_frame src input_frame;
    if r <? 0 then
      fprintf_stderr ("Error while feeding the filter graph" +:+ LF);;
      ret nullptr
    else
      sink ← field buffersink_ctx;
      r ← av_buffersink_get_frame sink output_frame;
      if r <? 0 then
        av_frame_free output_frame;;
        if negb (r =? AVERROR EAGAIN) && negb (r =? AVERROR_EOF) then
          errbuf ← av_strerror r;
          fprintf_stderr
            ("Error getting frame from filter graph: " +:+ errbuf +:+ LF);;
          ret nullptr
        else ret PTR_MINUS_ONE
      else
        t ← read_pts output_frame;
        tb ← inputs0_time_base sink;
        out_tb ← field output_time_base;
        write_pts output_frame (av_rescale_q t tb out_tb);;
        ret output_frame.

(** The [while (1)] loop of [flush]; [fuel] bounds the number of
    iterations.  The result is the value [flush] returns and the vector
    [processed_frames] as the loop leaves it. *)
Fixpoint flush_loop (fuel : nat) (processed_frames : list Z)
    : M (Z * list Z) :=
  match fuel with
  | O => abort OutOfFuel
  | S fuel' =>
      filt_frame ← av_frame_alloc;
      if filt_frame =? nullptr then ret (AVERROR ENOMEM, processed_frames)
      else
        sink ← field buffersink_ctx;
        r ← av_buffersink_get_frame sink filt_frame;
        if (r =? AVERROR EAGAIN) || (r =? AVERROR_EOF) then
          av_frame_free filt_frame;;
          ret (0, processed_frames)
        else if r <? 0 then
          av_frame_free filt_frame;;
          ret (r, processed_frames)
        else
          t ← read_pts filt_frame;
          tb ← inputs0_time_base sink;
          out_tb ← field output_time_base;
          write_pts filt_frame (av_rescale_q t tb out_tb);;
          flush_loop fuel' (processed_frames ++ [filt_frame])
  end.

(** [LibplaceboFilter::flush] *)
Definition flush (fuel : nat) (processed_frames : list Z) : M (Z * list Z) :=
  src ← field buffersrc_ctx;
  r ← av_buffersrc_add_frame src nullptr;
  if r <? 0 then
    fprintf_stderr ("Error while flushing filter graph" +:+ LF);;
    ret (r, processed_frames)
  else flush_loop fuel processed_frames.

End Filter.

(** * Vocabulary of the statements *)

(** The retrieval answers that mean "nothing to hand out now". *)
Definition no_frame_yet (r : Z) : bool :=
  (r =? AVERROR EAGAIN) || (r =? AVERROR_EOF).

(** The computation [c] ends, however it ends, with the session object it
    started with. *)
Definition keeps_self {A} (c : M A) : Prop := forall s, self (c s).2 = self s.

(** The answers the next calls into the library will get. *)
Definition next_alloc (lib : Extern) (s : St) : Z :=
  frame_alloc_ans lib (n_alloc (av s)).
Definition next_srcadd (lib : Extern) (s : St) : Z :=
  buffersrc_add_ans lib (n_srcadd (av s)).
Definition next_sinkget (lib : Extern) (s : St) : Z * AVFrame :=
  buffersink_get_ans lib (n_sinkget (av s)).

(** [effect s s' h calls da ds dk]: from [s] to [s'] no field of the session
    changed, the live frames became [h], [calls] were appended to the log,
    and the three oracles answered [da], [ds] and [dk] more calls. *)
Definition effect (s s' : St) (h : gmap Z AVFrame) (calls : list Call)
    (da ds dk : nat) : Prop :=
  self s' = self s /\
  frames (av s') = h /\
  trace (av s') = trace (av s) ++ calls /\
  n_alloc (av s') = (n_alloc (av s) + da)%nat /\
  n_srcadd (av s') = (n_srcadd (av s) + ds)%nat /\
  n_sinkget (av s') = (n_sinkget (av s) + dk)%nat.

(** The live frames of a call of [process_frame] once its container is
    allocated and its input frame has been accepted by the source. *)
Definition after_submit (lib : Extern) (input_frame : Z) (s : St)
    : gmap Z AVFrame :=
  take_frame lib (n_srcadd (av s)) input_frame
    (<[next_alloc lib s := blank_frame]> (frames (av s))).

(** The frame a container holds once its timestamp is in the output time
    base. *)
Definition rescaled (lib : Extern) (me : LibplaceboFilter) (f : AVFrame)
    : AVFrame :=
  {| pts := av_rescale_q (pts f) (link_time_base lib (buffersink_ctx me))
              (output_time_base me);
     picture := picture f |}.

(** The pipeline holds the frames [fs]: the next retrievals, from call
    number [k0] on, succeed and hand them out one by one. *)
Definition delivers (lib : Extern) (k0 : nat) (fs : list AVFrame) : Prop :=
  forall (i : nat) (f : AVFrame),
    fs !! i = Some f ->
    0 <= (buffersink_get_ans lib (k0 + i)%nat).1 /\
    (buffersink_get_ans lib (k0 + i)%nat).2 = f.

(** The containers the next [n] allocations return, from call [a0] on. *)
Definition allocates (lib : Extern) (a0 n : nat) : list Z :=
  map (frame_alloc_ans lib) (seq a0 n).

(** These allocations all succeed, and with containers distinct from one
    another, as they are while none of them is freed. *)
Definition alloc_ok (lib : Extern) (a0 n : nat) : Prop :=
  Forall (fun p => p ≠ nullptr) (allocates lib a0 n) /\
  NoDup (allocates lib a0 n).

(** What the loop has done once it has retrieved the frames [fs]. *)
Definition drained (lib : Extern) (s s' : St) (fs : list AVFrame) : Prop :=
  let ps := allocates lib (n_alloc (av s)) (length fs) in
  self s' = self s /\
  n_alloc (av s') = (n_alloc (av s) + length fs)%nat /\
  n_srcadd (av s') = n_srcadd (av s) /\
  n_sinkget (av s') = (n_sinkget (av s) + length fs)%nat /\
  (forall q : Z, q ∉ ps -> frames (av s') !! q = frames (av s) !! q) /\
  (forall (i : nat) (p : Z) (f : AVFrame),
     ps !! i = Some p -> fs !! i = Some f ->
     frames (av s') !! p = Some (rescaled lib (self s) f)).

(** A time base is a positive rational. *)
Definition valid_time_base (q : AVRational) : Prop := 0 < num q /\ 0 < den q.

(** A list of timestamps in non-decreasing order. *)
Definition non_decreasing (l : list Z) : Prop :=
  forall (i j : nat) (x y : Z),
    (i <= j)%nat -> l !! i = Some x -> l !! j = Some y -> x <= y.

(** The four handles of the session: all null, all bound, one or the other. *)
Definition all_null (me : LibplaceboFilter) : Prop :=
  filter_graph me = nullptr /\ buffersrc_ctx me = nullptr /\
  buffersink_ctx me = nullptr /\ device_ctx me = nullptr.

Definition all_bound (me : LibplaceboFilter) : Prop :=
  filter_graph me ≠ nullptr /\ buffersrc_ctx me ≠ nullptr /\
  buffersink_ctx me ≠ nullptr /\ device_ctx me ≠ nullptr.

Definition handles_all_or_none (me : LibplaceboFilter) : Prop :=
  all_bound me \/ all_null me.

(** The releases the destructor owes for a session: one per handle that is
    not null, source endpoint first, then sink endpoint, device, graph. *)
Definition release_calls (me : LibplaceboFilter) : list Call :=
  (if buffersrc_ctx me =? nullptr then []
   else [Call_avfilter_free (buffersrc_ctx me)]) ++
  (if buffersink_ctx me =? nullptr then []
   else [Call_avfilter_free (buffersink_ctx me)]) ++
  (if device_ctx me =? nullptr then []
   else [Call_av_buffer_unref (device_ctx me)]) ++
  (if filter_graph me =? nullptr then []
   else [Call_avfilter_graph_free (filter_graph me)]).

(** The session with its four handles cleared and nothing else changed. *)
Definition cleared (me : LibplaceboFilter) : LibplaceboFilter :=
  {| filter_graph := nullptr; buffersrc_ctx := nullptr;
     buffersink_ctx := nullptr; device_ctx := nullptr;
     output_width := output_width me; output_height := output_height me;
     shader_path := shader_path me; output_time_base := output_time_base me |}.

(** The fallback the locator is asked for:
    [path("models") / (shader_path.string() + ".glsl")]. *)
Definition fallback_path (me : LibplaceboFilter) : string :=
  path_append "models" (shader_path me +:+ ".glsl").

(** The state in which [init] calls the builder: the time base of the
    encoder captured, and [calls] logged on the way. *)
Definition at_build (enc_ctx : AVCodecContext) (calls : list Call) (s : St)
    : St :=
  {| self := set_output_time_base (time_base enc_ctx) (self s);
     av := {| n_alloc := n_alloc (av s); n_srcadd := n_srcadd (av s);
              n_sinkget := n_sinkget (av s); frames := frames (av s);
              trace := trace (av s) ++ calls |} |}.

(** An address at which an [AVFrame] object can live: not null, and with
    room for the object below the top of the address space. *)
Definition valid_ptr (p : Z) : Prop := 0 < p < PTR_MINUS_ONE.

(** The allocator answers [nullptr] or the address of an object. *)
Definition allocator_sound (lib : Extern) : Prop :=
  forall n : nat,
    frame_alloc_ans lib n = nullptr \/ valid_ptr (frame_alloc_ans lib n).

(** Every live container lives at the address of an object. *)
Definition heap_sound (w : Libav) : Prop :=
  forall (p : Z) (f : AVFrame), frames w !! p = Some f -> valid_ptr p.

(** [r] points to a live frame in state [s]. *)
Definition is_frame (s : St) (r : Z) : Prop := is_Some (frames (av s) !! r).

(** Exactly one of three propositions holds. *)
Definition exactly_one (A B C : Prop) : Prop :=
  (A /\ ~ B /\ ~ C) \/ (~ A /\ B /\ ~ C) \/ (~ A /\ ~ B /\ C).

(** The container [p] a call allocated is accounted for when the call
    returns [r] in state [s']: there was none, or it is what the call
    returns, or it is no longer live. *)
Definition accounted (s' : St) (p r : Z) : Prop :=
  p = nullptr \/ r = p \/ frames (av s') !! p = None.

(** The containers [ps] hold, in state [s'], the frames [fs] with their
    timestamps rescaled for the session [me]. *)
Definition holds_rescaled (lib : Extern) (me : LibplaceboFilter) (s' : St)
    (ps : list Z) (fs : list AVFrame) : Prop :=
  forall (i : nat) (p : Z) (f : AVFrame),
    ps !! i = Some p -> fs !! i = Some f ->
    frames (av s') !! p = Some (rescaled lib me f).

(** The builder answers four handles that are bound, or a negative code. *)
Definition builder_sound (lib : Extern) : Prop :=
  forall (dec_ctx : AVCodecContext) (width height : Z) (shader : string),
    match build_ans lib dec_ctx width height shader with
    | BuildOk graph src sink dev =>
        graph ≠ nullptr /\ src ≠ nullptr /\ sink ≠ nullptr /\ dev ≠ nullptr
    | BuildErr code => code < 0
    end.

(** A call that writes a message to stderr. *)
Definition is_stderr (c : Call) : bool :=
  match c with
  | Call_fprintf_stderr _ => true
  | _ => false
  end.

(** The containers allocated on the way from state [s] to state [s']. *)
Definition allocated_between (lib : Extern) (s s' : St) : list Z :=
  allocates lib (n_alloc (av s)) (n_alloc (av s') - n_alloc (av s)).

(** * Concrete worlds to run the session in *)

(** An oracle that answers from finite scripts; once a script is used up
    allocation fails, submission succeeds and retrieval reports the end of
    the stream.  An accepted submission leaves the frame handed over reset.  Nothing is readable or locatable but what [files] lists. *)
Definition scripted (allocs srcs : list Z) (sinks : list (Z * AVFrame))
    (tb : AVRational) (files : list string)
    (located : list (string * string)) (built : Built) : Extern :=
  {| frame_alloc_ans n := nth n allocs nullptr;
     buffersrc_add_ans n := nth n srcs 0;
     buffersrc_add_leaves _ _ := blank_frame;
     buffersink_get_ans n := nth n sinks (AVERROR_EOF, blank_frame);
     strerror_ans _ := "Invalid argument";
     link_time_base _ := tb;
     fs_readable p := bool_decide (p ∈ files);
     fs_locate p := (list_to_map located : gmap string string) !! p;
     build_ans _ _ _ _ := built |}.

(** The library before any call. *)
Definition fresh_libav : Libav :=
  {| n_alloc := 0; n_srcadd := 0; n_sinkget := 0; frames := ∅; trace := [] |}.

(** A session for 1920x1080 output, shader "upscale", before [init]. *)
Definition demo_new : St :=
  {| self := LibplaceboFilter_ctor 1920 1080 "upscale" {| num := 0; den := 0 |};
     av := fresh_libav |}.

(** The same session after an [init] that bound the handles 16, 32, 48, 64
    and captured the encoder time base 1/30. *)
Definition demo_ready : St :=
  {| self := {| filter_graph := 16; buffersrc_ctx := 32; buffersink_ctx := 48;
                device_ctx := 64; output_width := 1920; output_height := 1080;
                shader_path := "upscale";
                output_time_base := {| num := 1; den := 30 |} |};
     av := fresh_libav |}.

Definition frame_a : AVFrame := {| pts := 5; picture := 1 |}.
Definition frame_b : AVFrame := {| pts := 6; picture := 2 |}.
Definition tb_25 : AVRational := {| num := 1; den := 25 |}.

(** The pipeline holds two frames and then reports the end of the stream. *)
Definition demo_lib : Extern :=
  scripted [4096; 8192; 12288] [0; 0] [(0, frame_a); (0, frame_b)] tb_25
    [] [("models/upscale.glsl", "/usr/share/video2x/models/upscale.glsl")]
    (BuildOk 16 32 48 64).

(** The pipeline refuses the frame: the submission answers
    AVERROR(EINVAL). *)
Definition refusing_lib : Extern :=
  scripted [4096] [-22] [] tb_25 [] [] (BuildOk 16 32 48 64).

(** The allocator gives out after two containers. *)
Definition starved_lib : Extern :=
  scripted [4096; 8192] [0] [(0, frame_a); (0, frame_b); (0, frame_a)] tb_25
    [] [] (BuildOk 16 32 48 64).

(** The third retrieval fails with AVERROR(EINVAL). *)
Definition broken_lib : Extern :=
  scripted [4096; 8192; 12288] [0] [(0, frame_a); (0, frame_b); (-22, blank_frame)]
    tb_25 [] [] (BuildOk 16 32 48 64).

Definition tb_30 : AVRational := {| num := 1; den := 30 |}.

(** The builder cannot create the Vulkan device: AVERROR(ENOMEM). *)
Definition unbuildable_lib : Extern :=
  scripted [] [] [] tb_25
    [] [("models/upscale.glsl", "/usr/share/video2x/models/upscale.glsl")]
    (BuildErr (-12)).

Definition dec_demo : AVCodecContext := {| time_base := tb_25 |}.
Definition enc_demo : AVCodecContext := {| time_base := tb_30 |}.

(** The shader is given by a readable path. *)
Definition direct_lib : Extern :=
  scripted [] [] [] tb_25 ["upscale"] [] (BuildOk 16 32 48 64).

(** Neither the shader path nor the fallback can be read. *)
Definition missing_lib : Extern :=
  scripted [] [] [] tb_25 [] [] (BuildOk 16 32 48 64).

(** The initialised session while the caller holds two decoded frames, at
    100 and at 200. *)
Definition demo_busy : St :=
  {| self := self demo_ready;
     av := {| n_alloc := 0; n_srcadd := 0; n_sinkget := 0;
              frames := {[ 100 := {| pts := 40; picture := 7 |};
                           200 := {| pts := 41; picture := 8 |} ]};
              trace := [] |} |}.

(** The pipeline needs more input before it can hand out a frame. *)
Definition idle_lib : Extern :=
  scripted [4096; 8192] [0; 0] [(AVERROR EAGAIN, blank_frame)] tb_25
    [] [] (BuildOk 16 32 48 64).

(** The sink's input link already runs in the encoder's time base. *)
Definition same_tb_lib : Extern :=
  scripted [4096] [0] [(0, frame_a)] tb_30 [] [] (BuildOk 16 32 48 64).

(** A session whose shader is named by an absolute path. *)
Definition absolute_new : St :=
  {| self := LibplaceboFilter_ctor 1920 1080 "/opt/shaders/anime4k"
               {| num := 0; den := 0 |};
     av := fresh_libav |}.

(** * Symbolic execution *)

Ltac munfold :=
  unfold mbind, M_bind, bind, mret, M_ret, ret, field, assign, lift_av, abort,
    av_frame_alloc, av_frame_free, av_buffersrc_add_frame,
    av_buffersink_get_frame, avfilter_free, av_buffer_unref,
    avfilter_graph_free, av_strerror, fprintf_stderr, read_pts, write_pts,
    inputs0_time_base, filepath_is_readable, find_resource_file,
    init_libplacebo, log, with_frames.

(** Rewrite the test of the next branch with a fact at hand, then go on. *)
Ltac take H := rewrite H; cbn.

Lemma eqb_nullptr_false (p : Z) : p ≠ nullptr -> (p =? nullptr) = false.
Proof. intros H. now apply Z.eqb_neq. Qed.

Lemma AVERROR_EAGAIN_neg : AVERROR EAGAIN < 0.
Proof. reflexivity. Qed.
Lemma AVERROR_EOF_neg : AVERROR_EOF < 0.
Proof. reflexivity. Qed.
Lemma AVERROR_EOF_value : AVERROR_EOF = -541478725.
Proof. reflexivity. Qed.
Lemma PTR_MINUS_ONE_value : PTR_MINUS_ONE = 2 ^ 64 - 1.
Proof. reflexivity. Qed.

Lemma no_frame_yet_neg (r : Z) : no_frame_yet r = true -> r < 0.
Proof.
  unfold no_frame_yet. intros H. apply orb_true_iff in H.
  destruct H as [H | H]; apply Z.eqb_eq in H; subst r; reflexivity.
Qed.

Lemma no_frame_yet_iff (r : Z) :
  no_frame_yet r = true <-> r = AVERROR EAGAIN \/ r = AVERROR_EOF.
Proof.
  unfold no_frame_yet. rewrite orb_true_iff, !Z.eqb_eq. reflexivity.
Qed.

(** ** A computation that never assigns a field of the session *)

Lemma keeps_self_ret {A} (a : A) : keeps_self (ret a).
Proof. intros s. reflexivity. Qed.

Lemma keeps_self_abort {A} (why : Abort) : keeps_self (@abort A why).
Proof. intros s. reflexivity. Qed.

Lemma keeps_self_bind {A B} (c : M A) (k : A -> M B) :
  keeps_self c -> (forall a, keeps_self (k a)) -> keeps_self (c ≫= k).
Proof.
  intros Hc Hk s. unfold mbind, M_bind, bind.
  specialize (Hc s). destruct (c s) as [[a | why] s1]; simpl in *.
  - rewrite Hk. exact Hc.
  - exact Hc.
Qed.

Lemma keeps_self_field {A} (proj : LibplaceboFilter -> A) :
  keeps_self (field proj).
Proof. intros s. reflexivity. Qed.

Lemma keeps_self_lift_av {A} (f : Libav -> A * Libav) : keeps_self (lift_av f).
Proof. intros s. unfold lift_av. destruct (f (av s)). reflexivity. Qed.

Lemma keeps_self_read_pts (p : Z) : keeps_self (read_pts p).
Proof. intros s. unfold read_pts. destruct (frames (av s) !! p); reflexivity. Qed.

Lemma keeps_self_write_pts (p v : Z) : keeps_self (write_pts p v).
Proof. intros s. unfold write_pts. destruct (frames (av s) !! p); reflexivity. Qed.

Lemma keeps_self_if {A} (b : bool) (c1 c2 : M A) :
  keeps_self c1 -> keeps_self c2 -> keeps_self (if b then c1 else c2).
Proof. destruct b; auto. Qed.

Create HintDb keeps.
#[global] Hint Resolve keeps_self_ret keeps_self_abort keeps_self_field
  keeps_self_lift_av keeps_self_read_pts keeps_self_write_pts : keeps.

Ltac keeps :=
  repeat first
    [ apply keeps_self_bind; [ | intros ? ]
    | apply keeps_self_if
    | solve [ auto with keeps ] ].

Section Frame.

Variable lib : Extern.

Lemma keeps_self_inputs0_time_base (ctx : Z) :
  keeps_self (inputs0_time_base lib ctx).
Proof. unfold inputs0_time_base. keeps. Qed.

Lemma keeps_self_process_frame (input_frame : Z) :
  keeps_self (process_frame lib input_frame).
Proof.
  unfold process_frame, av_frame_alloc, av_frame_free, av_buffersrc_add_frame,
    av_buffersink_get_frame, av_strerror, fprintf_stderr.
  pose proof keeps_self_inputs0_time_base. keeps.
Qed.

Lemma keeps_self_flush_loop (fuel : nat) :
  forall processed_frames, keeps_self (flush_loop lib fuel processed_frames).
Proof.
  induction fuel as [| fuel IH]; intros v; simpl.
  - auto with keeps.
  - unfold av_frame_alloc, av_frame_free, av_buffersink_get_frame.
    pose proof keeps_self_inputs0_time_base. keeps.
Qed.

Lemma keeps_self_flush (fuel : nat) (processed_frames : list Z) :
  keeps_self (flush lib fuel processed_frames).
Proof.
  unfold flush, av_buffersrc_add_frame, fprintf_stderr.
  pose proof keeps_self_flush_loop. keeps.
Qed.

End Frame.

(** * The frame handed to the source *)

Lemma take_frame_lookup_ne (lib : Extern) (n : nat) (frame q : Z)
    (h : gmap Z AVFrame) :
  q ≠ frame -> take_frame lib n frame h !! q = h !! q.
Proof.
  intros Hne. unfold take_frame. destruct (frame =? nullptr); [reflexivity | ].
  apply lookup_alter_ne. congruence.
Qed.

Lemma take_frame_is_Some (lib : Extern) (n : nat) (frame q : Z)
    (h : gmap Z AVFrame) :
  is_Some (take_frame lib n frame h !! q) <-> is_Some (h !! q).
Proof.
  unfold take_frame. destruct (frame =? nullptr); [reflexivity | ].
  destruct (decide (q = frame)) as [-> | Hne].
  - rewrite lookup_alter_eq. apply fmap_is_Some.
  - rewrite lookup_alter_ne by congruence. reflexivity.
Qed.

Lemma take_frame_dom (lib : Extern) (n : nat) (frame : Z)
    (h : gmap Z AVFrame) :
  dom (take_frame lib n frame h) = dom h.
Proof.
  unfold take_frame. destruct (frame =? nullptr); [reflexivity | ].
  apply dom_alter_L.
Qed.

(** * What one call does, path by path *)

Ltac effect_done :=
  unfold effect; cbn;
  repeat split;
  try (rewrite <- ?app_assoc; reflexivity);
  try lia.

Section ProcessFrame.

Variable lib : Extern.
Variable input_frame : Z.
Variable s : St.

Lemma process_frame_alloc_failure :
  next_alloc lib s = nullptr ->
  exists s',
    process_frame lib input_frame s = (Done nullptr, s') /\
    effect s s' (frames (av s))
      [Call_av_frame_alloc nullptr;
       Call_fprintf_stderr ("Failed to allocate output frame" +:+ LF)]
      1 0 0.
Proof.
  unfold next_alloc. intros Ha.
  unfold process_frame. munfold. cbn.
  take Ha. eexists. split; [reflexivity | effect_done].
Qed.

Lemma process_frame_submit_failure :
  next_alloc lib s ≠ nullptr ->
  next_srcadd lib s < 0 ->
  exists s',
    process_frame lib input_frame s = (Done nullptr, s') /\
    effect s s' (<[next_alloc lib s := blank_frame]> (frames (av s)))
      [Call_av_frame_alloc (next_alloc lib s);
       Call_av_buffersrc_add_frame (buffersrc_ctx (self s)) input_frame
         (next_srcadd lib s);
       Call_fprintf_stderr ("Error while feeding the filter graph" +:+ LF)]
      1 1 0.
Proof.
  unfold next_alloc, next_srcadd. intros Ha Hs.
  apply eqb_nullptr_false in Ha. apply Z.ltb_lt in Hs.
  unfold process_frame. munfold. cbn.
  take Ha. take Hs. eexists. split; [reflexivity | effect_done].
Qed.

Lemma process_frame_not_ready :
  next_alloc lib s ≠ nullptr ->
  0 <= next_srcadd lib s ->
  no_frame_yet (next_sinkget lib s).1 = true ->
  exists s',
    process_frame lib input_frame s = (Done PTR_MINUS_ONE, s') /\
    effect s s'
      (delete (next_alloc lib s) (after_submit lib input_frame s))
      [Call_av_frame_alloc (next_alloc lib s);
       Call_av_buffersrc_add_frame (buffersrc_ctx (self s)) input_frame
         (next_srcadd lib s);
       Call_av_buffersink_get_frame (buffersink_ctx (self s))
         (next_alloc lib s) (next_sinkget lib s).1;
       Call_av_frame_free (next_alloc lib s)]
      1 1 1.
Proof.
  intros Ha Hs Hk. pose proof (no_frame_yet_neg _ Hk) as Hneg.
  unfold next_alloc, next_srcadd, next_sinkget, no_frame_yet in *.
  apply eqb_nullptr_false in Ha. apply Z.ltb_ge in Hs. apply Z.ltb_lt in Hneg.
  unfold process_frame. munfold. cbn.
  take Ha. take Hs. take Hneg.
  replace (negb _ && negb _) with false
    by (rewrite <- negb_orb, Hk; reflexivity).
  eexists. split; [reflexivity | effect_done].
Qed.

Lemma process_frame_retrieval_failure :
  next_alloc lib s ≠ nullptr ->
  0 <= next_srcadd lib s ->
  (next_sinkget lib s).1 < 0 ->
  no_frame_yet (next_sinkget lib s).1 = false ->
  exists s',
    process_frame lib input_frame s = (Done nullptr, s') /\
    effect s s'
      (delete (next_alloc lib s) (after_submit lib input_frame s))
      [Call_av_frame_alloc (next_alloc lib s);
       Call_av_buffersrc_add_frame (buffersrc_ctx (self s)) input_frame
         (next_srcadd lib s);
       Call_av_buffersink_get_frame (buffersink_ctx (self s))
         (next_alloc lib s) (next_sinkget lib s).1;
       Call_av_frame_free (next_alloc lib s);
       Call_fprintf_stderr
         ("Error getting frame from filter graph: "
          +:+ strerror_ans lib (next_sinkget lib s).1 +:+ LF)]
      1 1 1.
Proof.
  intros Ha Hs Hneg Hk.
  unfold next_alloc, next_srcadd, next_sinkget, no_frame_yet in *.
  apply eqb_nullptr_false in Ha. apply Z.ltb_ge in Hs. apply Z.ltb_lt in Hneg.
  unfold process_frame. munfold. cbn.
  take Ha. take Hs. take Hneg.
  replace (negb _ && negb _) with true
    by (rewrite <- negb_orb, Hk; reflexivity).
  eexists. split; [reflexivity | effect_done].
Qed.

Lemma process_frame_produced :
  next_alloc lib s ≠ nullptr ->
  0 <= next_srcadd lib s ->
  0 <= (next_sinkget lib s).1 ->
  buffersink_ctx (self s) ≠ nullptr ->
  exists s',
    process_frame lib input_frame s = (Done (next_alloc lib s), s') /\
    effect s s'
      (<[next_alloc lib s := rescaled lib (self s) (next_sinkget lib s).2]>
         (after_submit lib input_frame s))
      [Call_av_frame_alloc (next_alloc lib s);
       Call_av_buffersrc_add_frame (buffersrc_ctx (self s)) input_frame
         (next_srcadd lib s);
       Call_av_buffersink_get_frame (buffersink_ctx (self s))
         (next_alloc lib s) (next_sinkget lib s).1]
      1 1 1.
Proof.
  intros Ha Hs Hpos Hctx.
  unfold next_alloc, next_srcadd, next_sinkget in *.
  apply eqb_nullptr_false in Ha. apply Z.ltb_ge in Hs. apply Z.ltb_ge in Hpos.
  apply eqb_nullptr_false in Hctx.
  unfold process_frame. munfold. cbn.
  take Ha. take Hs. take Hpos.
  rewrite lookup_insert_eq. cbn. take Hctx.
  rewrite lookup_insert_eq. cbn.
  eexists. split; [reflexivity | ].
  unfold effect; cbn. rewrite !insert_insert_eq.
  repeat split; try (rewrite <- ?app_assoc; reflexivity); lia.
Qed.

End ProcessFrame.

(** * The drain loop *)

Lemma delivers_cons lib k0 f fs :
  delivers lib k0 (f :: fs) ->
  ((0 <= (buffersink_get_ans lib k0).1)
   /\ (buffersink_get_ans lib k0).2 = f)
  /\ delivers lib (S k0) fs.
Proof.
  intros H. split.
  - specialize (H 0%nat f eq_refl). now rewrite Nat.add_0_r in H.
  - intros i g Hi. specialize (H (S i) g Hi).
    now replace (S k0 + i)%nat with (k0 + S i)%nat by lia.
Qed.

Lemma alloc_ok_S lib a0 n :
  alloc_ok lib a0 (S n) ->
  frame_alloc_ans lib a0 ≠ nullptr /\
  (frame_alloc_ans lib a0 ∉ allocates lib (S a0) n) /\
  alloc_ok lib (S a0) n.
Proof.
  unfold alloc_ok, allocates. cbn [seq map].
  intros [Hall Hnd]. apply Forall_cons in Hall as [H0 Hall].
  apply NoDup_cons in Hnd as [Hnotin Hnd]. auto.
Qed.

Lemma alloc_ok_last lib a0 n :
  alloc_ok lib a0 (S n) ->
  alloc_ok lib a0 n /\
  frame_alloc_ans lib (a0 + n)%nat ≠ nullptr /\
  frame_alloc_ans lib (a0 + n)%nat ∉ allocates lib a0 n.
Proof.
  unfold alloc_ok, allocates. rewrite seq_S, map_app. cbn [map].
  intros [Hall Hnd]. apply Forall_app in Hall as [Hall Hlast].
  apply Forall_cons in Hlast as [Hlast _].
  apply NoDup_app in Hnd as (Hnd & Hdisj & _).
  split; [split; assumption | split; [exact Hlast | ]].
  intros Hin. apply (Hdisj _ Hin). apply list_elem_of_singleton. reflexivity.
Qed.

Lemma nonneg_not_no_frame_yet (r : Z) : 0 <= r -> no_frame_yet r = false.
Proof.
  intros H. destruct (no_frame_yet r) eqn:E; [ | reflexivity].
  apply no_frame_yet_neg in E. lia.
Qed.

Section FlushLoop.

Variable lib : Extern.

Lemma flush_loop_step (fuel : nat) (v : list Z) (s : St) :
  next_alloc lib s ≠ nullptr ->
  0 <= (next_sinkget lib s).1 ->
  buffersink_ctx (self s) ≠ nullptr ->
  exists s1,
    flush_loop lib (S fuel) v s
      = flush_loop lib fuel (v ++ [next_alloc lib s]) s1 /\
    effect s s1
      (<[next_alloc lib s := rescaled lib (self s) (next_sinkget lib s).2]>
         (frames (av s)))
      [Call_av_frame_alloc (next_alloc lib s);
       Call_av_buffersink_get_frame (buffersink_ctx (self s))
         (next_alloc lib s) (next_sinkget lib s).1]
      1 0 1.
Proof.
  intros Ha Hpos Hctx. pose proof (nonneg_not_no_frame_yet _ Hpos) as Hk.
  unfold next_alloc, next_sinkget, no_frame_yet in *.
  apply eqb_nullptr_false in Ha. apply Z.ltb_ge in Hpos.
  apply eqb_nullptr_false in Hctx.
  cbn [flush_loop]. munfold. cbn.
  take Ha. take Hk. take Hpos.
  rewrite lookup_insert_eq. cbn. take Hctx.
  rewrite lookup_insert_eq. cbn.
  eexists. split; [reflexivity | ].
  unfold effect; cbn. rewrite !insert_insert_eq.
  repeat split; try (rewrite <- ?app_assoc; reflexivity); lia.
Qed.

(** The loop ends normally: the retrieval has nothing more to hand out. *)
Lemma flush_loop_end (fuel : nat) (v : list Z) (s : St) :
  next_alloc lib s ≠ nullptr ->
  no_frame_yet (next_sinkget lib s).1 = true ->
  exists s',
    flush_loop lib (S fuel) v s = (Done (0, v), s') /\
    effect s s'
      (delete (next_alloc lib s)
         (<[next_alloc lib s := blank_frame]> (frames (av s))))
      [Call_av_frame_alloc (next_alloc lib s);
       Call_av_buffersink_get_frame (buffersink_ctx (self s))
         (next_alloc lib s) (next_sinkget lib s).1;
       Call_av_frame_free (next_alloc lib s)]
      1 0 1.
Proof.
  intros Ha Hk. pose proof (no_frame_yet_neg _ Hk) as Hneg.
  unfold next_alloc, next_sinkget, no_frame_yet in *.
  apply eqb_nullptr_false in Ha. apply Z.ltb_lt in Hneg.
  cbn [flush_loop]. munfold. cbn.
  take Ha. take Hk. take Hneg.
  eexists. split; [reflexivity | effect_done].
Qed.

(** The loop is left by [return AVERROR(ENOMEM)]. *)
Lemma flush_loop_enomem (fuel : nat) (v : list Z) (s : St) :
  next_alloc lib s = nullptr ->
  exists s',
    flush_loop lib (S fuel) v s = (Done (AVERROR ENOMEM, v), s') /\
    effect s s' (frames (av s)) [Call_av_frame_alloc nullptr] 1 0 0.
Proof.
  unfold next_alloc. intros Ha.
  cbn [flush_loop]. munfold. cbn. take Ha.
  eexists. split; [reflexivity | effect_done].
Qed.

(** The loop is left by [return ret] on a retrieval error. *)
Lemma flush_loop_fatal (fuel : nat) (v : list Z) (s : St) :
  next_alloc lib s ≠ nullptr ->
  (next_sinkget lib s).1 < 0 ->
  no_frame_yet (next_sinkget lib s).1 = false ->
  exists s',
    flush_loop lib (S fuel) v s = (Done ((next_sinkget lib s).1, v), s') /\
    effect s s'
      (delete (next_alloc lib s)
         (<[next_alloc lib s := blank_frame]> (frames (av s))))
      [Call_av_frame_alloc (next_alloc lib s);
       Call_av_buffersink_get_frame (buffersink_ctx (self s))
         (next_alloc lib s) (next_sinkget lib s).1;
       Call_av_frame_free (next_alloc lib s)]
      1 0 1.
Proof.
  intros Ha Hneg Hk.
  unfold next_alloc, next_sinkget, no_frame_yet in *.
  apply eqb_nullptr_false in Ha. apply Z.ltb_lt in Hneg.
  cbn [flush_loop]. munfold. cbn.
  take Ha. take Hk. take Hneg.
  eexists. split; [reflexivity | effect_done].
Qed.

Lemma flush_loop_prefix (fs : list AVFrame) :
  forall (s : St) (v : list Z) (fuel : nat),
    buffersink_ctx (self s) ≠ nullptr ->
    delivers lib (n_sinkget (av s)) fs ->
    alloc_ok lib (n_alloc (av s)) (length fs) ->
    exists s',
      flush_loop lib (length fs + fuel) v s
        = flush_loop lib fuel
            (v ++ allocates lib (n_alloc (av s)) (length fs)) s' /\
      drained lib s s' fs.
Proof.
  induction fs as [| f fs IH]; intros s v fuel Hctx Hdel Hok.
  - exists s. cbn [length Nat.add allocates seq map]. rewrite app_nil_r.
    split; [reflexivity | ].
    unfold drained. cbn [length]. rewrite !Nat.add_0_r.
    repeat split; auto. intros i p g Hp. discriminate Hp.
  - apply delivers_cons in Hdel as [[Hpos Hf] Hdel].
    cbn [length] in Hok. apply alloc_ok_S in Hok as (Ha & Hfresh & Hok).
    destruct (flush_loop_step (length fs + fuel) v s Ha Hpos Hctx)
      as (s1 & Hstep & Hself & Hframes & _ & Hna & Hns & Hnk).
    destruct (IH s1 (v ++ [next_alloc lib s]) fuel) as (s' & Hrun & Hd).
    + now rewrite Hself.
    + now rewrite Hnk, Nat.add_1_r.
    + now rewrite Hna, Nat.add_1_r.
    + destruct Hd as (Hself' & Hna' & Hns' & Hnk' & Hother & Hnew).
      rewrite Hna, Nat.add_1_r in Hrun, Hother, Hnew.
      exists s'. split.
      * cbn [length Nat.add]. rewrite Hstep.
        cbn [allocates seq map]. unfold next_alloc in Hrun.
        rewrite <- app_assoc in Hrun. exact Hrun.
      * unfold drained. cbn [length allocates seq map].
        fold (allocates lib (S (n_alloc (av s))) (length fs)).
        repeat split; try congruence; try lia.
        -- intros q Hq. apply not_elem_of_cons in Hq as [Hne Hq].
           rewrite (Hother q Hq), Hframes.
           apply lookup_insert_ne. unfold next_alloc. congruence.
        -- intros [| i] p g Hp Hg; cbn in Hp, Hg.
           ++ injection Hp as <-. injection Hg as <-.
              rewrite (Hother _ Hfresh), Hframes. unfold next_alloc.
              rewrite lookup_insert_eq. unfold next_sinkget. now rewrite Hf.
           ++ rewrite <- Hself. eapply Hnew; eassumption.
Qed.

End FlushLoop.

(** * Timestamp rescale *)

Lemma av_rescale_q_exact (a : Z) (bq cq : AVRational) :
  valid_time_base bq -> valid_time_base cq ->
  (num cq * den bq | a * num bq * den cq) ->
  av_rescale_q a bq cq * (num cq * den bq) = a * num bq * den cq.
Proof.
  intros [Hbn Hbd] [Hcn Hcd] [k Hk]. unfold av_rescale_q.
  set (c := num cq * den bq) in *.
  assert (Hc : 0 < c) by (subst c; nia).
  assert (Hhalf : c / 2 / c = 0).
  { apply Z.div_small. split; [apply Z.div_pos; lia | ].
    apply Z.div_lt_upper_bound; lia. }
  destruct (0 <=? a).
  - replace (a * (num bq * den cq)) with (k * c) by lia.
    rewrite Z.div_add_l, Hhalf by lia. lia.
  - replace (- a * (num bq * den cq)) with (- k * c) by lia.
    rewrite Z.div_add_l, Hhalf by lia. lia.
Qed.

Lemma av_rescale_q_nearest (a : Z) (bq cq : AVRational) :
  valid_time_base bq -> valid_time_base cq ->
  2 * Z.abs (av_rescale_q a bq cq * (num cq * den bq)
             - a * (num bq * den cq)) <= num cq * den bq.
Proof.
  intros [Hbn Hbd] [Hcn Hcd]. unfold av_rescale_q.
  set (c := num cq * den bq). set (b := num bq * den cq).
  assert (Hc : 0 < c) by (subst c; nia).
  pose proof (Z.div_mod c 2 ltac:(lia)) as Hh.
  pose proof (Z.mod_pos_bound c 2 ltac:(lia)) as Hh2.
  destruct (0 <=? a).
  - pose proof (Z.div_mod (a * b + c / 2) c ltac:(lia)) as Hd.
    pose proof (Z.mod_pos_bound (a * b + c / 2) c Hc) as Hd2.
    lia.
  - pose proof (Z.div_mod (- a * b + c / 2) c ltac:(lia)) as Hd.
    pose proof (Z.mod_pos_bound (- a * b + c / 2) c Hc) as Hd2.
    lia.
Qed.

Lemma av_rescale_q_mono (a1 a2 : Z) (bq cq : AVRational) :
  valid_time_base bq -> valid_time_base cq ->
  a1 <= a2 -> av_rescale_q a1 bq cq <= av_rescale_q a2 bq cq.
Proof.
  intros [Hbn Hbd] [Hcn Hcd] Hle. unfold av_rescale_q.
  set (c := num cq * den bq). set (b := num bq * den cq).
  assert (Hc : 0 < c) by (subst c; nia).
  assert (Hb : 0 < b) by (subst b; nia).
  assert (Hhalf : 0 <= c / 2) by (apply Z.div_pos; lia).
  assert (Hnn : forall x, 0 <= x -> 0 <= (x * b + c / 2) / c).
  { intros x Hx. apply Z.div_pos; nia. }
  assert (Hmono : forall x y, x <= y ->
            (x * b + c / 2) / c <= (y * b + c / 2) / c).
  { intros x y Hxy. apply Z.div_le_mono; nia. }
  destruct (Z.leb_spec 0 a1), (Z.leb_spec 0 a2); try lia.
  - now apply Hmono.
  - pose proof (Hnn (- a1) ltac:(lia)). pose proof (Hnn a2 ltac:(lia)). lia.
  - specialize (Hmono (- a2) (- a1) ltac:(lia)). lia.
Qed.

Lemma av_rescale_q_non_decreasing (l : list Z) (bq cq : AVRational) :
  valid_time_base bq -> valid_time_base cq ->
  non_decreasing l ->
  non_decreasing (map (fun a => av_rescale_q a bq cq) l).
Proof.
  intros Hb Hc Hl i j x y Hij Hx Hy.
  rewrite list_lookup_fmap in Hx, Hy.
  destruct (l !! i) as [a1 |] eqn:E1; [ | discriminate].
  destruct (l !! j) as [a2 |] eqn:E2; [ | discriminate].
  cbn in Hx, Hy. injection Hx as <-. injection Hy as <-.
  apply av_rescale_q_mono; auto. eapply Hl; eassumption.
Qed.

(** * flush, init and the destructor, path by path *)

Section Paths.

Variable lib : Extern.

Lemma flush_submit_failure (fuel : nat) (v : list Z) (s : St) :
  next_srcadd lib s < 0 ->
  exists s',
    flush lib fuel v s = (Done (next_srcadd lib s, v), s') /\
    effect s s' (frames (av s))
      [Call_av_buffersrc_add_frame (buffersrc_ctx (self s)) nullptr
         (next_srcadd lib s);
       Call_fprintf_stderr ("Error while flushing filter graph" +:+ LF)]
      0 1 0.
Proof.
  unfold next_srcadd. intros Hs. apply Z.ltb_lt in Hs.
  unfold flush. munfold. cbn. take Hs.
  eexists. split; [reflexivity | effect_done].
Qed.

Lemma flush_enters_loop (fuel : nat) (v : list Z) (s : St) :
  0 <= next_srcadd lib s ->
  exists s1,
    flush lib fuel v s = flush_loop lib fuel v s1 /\
    effect s s1 (frames (av s))
      [Call_av_buffersrc_add_frame (buffersrc_ctx (self s)) nullptr
         (next_srcadd lib s)]
      0 1 0.
Proof.
  unfold next_srcadd. intros Hs. apply Z.ltb_ge in Hs.
  unfold flush. munfold. cbn. take Hs.
  eexists. split; [reflexivity | effect_done].
Qed.

Lemma dtor_runs (s : St) :
  exists s',
    LibplaceboFilter_dtor s = (Done tt, s') /\
    self s' = cleared (self s) /\
    frames (av s') = frames (av s) /\
    trace (av s') = trace (av s) ++ release_calls (self s).
Proof.
  destruct s as [[g a b d w h sp tb] w0].
  unfold LibplaceboFilter_dtor, release_calls, cleared. munfold. cbn.
  destruct (Z.eqb_spec a nullptr) as [-> | Ha%eqb_nullptr_false];
    destruct (Z.eqb_spec b nullptr) as [-> | Hb%eqb_nullptr_false];
    destruct (Z.eqb_spec d nullptr) as [-> | Hd%eqb_nullptr_false];
    destruct (Z.eqb_spec g nullptr) as [-> | Hg%eqb_nullptr_false];
    repeat (progress (cbn; rewrite ?Ha, ?Hb, ?Hd, ?Hg));
    eexists; (split; [reflexivity | ]); cbn;
    rewrite <- ?app_assoc, ?app_nil_r; auto.
Qed.

Lemma dtor_noop (s : St) :
  all_null (self s) -> LibplaceboFilter_dtor s = (Done tt, s).
Proof.
  destruct s as [[g a b d w h sp tb] w0]. unfold all_null. cbn.
  intros (-> & -> & -> & ->). reflexivity.
Qed.

Lemma init_libplacebo_ok dec_ctx width height shader s graph src sink dev :
  build_ans lib dec_ctx width height shader = BuildOk graph src sink dev ->
  init_libplacebo lib dec_ctx width height shader s =
    (Done 0,
     {| self := set_device_ctx dev (set_buffersink_ctx sink
                  (set_buffersrc_ctx src (set_filter_graph graph (self s))));
        av := log (Call_init_libplacebo width height shader 0) (av s) |}).
Proof. intros H. unfold init_libplacebo. rewrite H. reflexivity. Qed.

Lemma init_libplacebo_err dec_ctx width height shader s code :
  build_ans lib dec_ctx width height shader = BuildErr code ->
  init_libplacebo lib dec_ctx width height shader s =
    (Done code,
     {| self := self s;
        av := log (Call_init_libplacebo width height shader code) (av s) |}).
Proof. intros H. unfold init_libplacebo. rewrite H. reflexivity. Qed.

Lemma init_direct dec_ctx enc_ctx (s : St) :
  fs_readable lib (shader_path (self s)) = true ->
  init lib dec_ctx enc_ctx s =
    init_libplacebo lib dec_ctx (output_width (self s))
      (output_height (self s)) (shader_path (self s))
      (at_build enc_ctx [] s).
Proof.
  intros Hr. unfold init, at_build.
  unfold mbind, M_bind, bind, field, filepath_is_readable, ret, assign. cbn.
  rewrite Hr. cbn. rewrite app_nil_r. destruct s as [me [? ? ? ? ?]].
  reflexivity.
Qed.

Lemma init_fallback dec_ctx enc_ctx (s : St) (found : string) :
  fs_readable lib (shader_path (self s)) = false ->
  fs_locate lib (fallback_path (self s)) = Some found ->
  init lib dec_ctx enc_ctx s =
    init_libplacebo lib dec_ctx (output_width (self s))
      (output_height (self s)) found
      (at_build enc_ctx [Call_find_resource_file (fallback_path (self s))] s).
Proof.
  intros Hr Hl. unfold init, at_build, fallback_path in *.
  unfold mbind, M_bind, bind, field, filepath_is_readable, ret, assign,
    find_resource_file, lift_av, log. cbn.
  rewrite Hr. cbn. unfold mbind, M_bind, bind. cbn. rewrite Hl. reflexivity.
Qed.

Lemma init_unresolved dec_ctx enc_ctx (s : St) :
  fs_readable lib (shader_path (self s)) = false ->
  fs_locate lib (fallback_path (self s)) = None ->
  init lib dec_ctx enc_ctx s =
    (Stop (Exception "find_resource_file"),
     {| self := self s;
        av := log (Call_find_resource_file (fallback_path (self s))) (av s) |}).
Proof.
  intros Hr Hl. unfold init, fallback_path in *.
  unfold mbind, M_bind, bind, field, filepath_is_readable, ret, assign,
    find_resource_file, lift_av, abort. cbn.
  rewrite Hr. cbn. unfold mbind, M_bind, bind. cbn. rewrite Hl. reflexivity.
Qed.

End Paths.

Lemma fallback_path_absolute (me : LibplaceboFilter) :
  is_absolute (shader_path me) = true ->
  fallback_path me = shader_path me +:+ ".glsl".
Proof.
  unfold fallback_path, path_append. intros Habs.
  assert (Habs' : is_absolute (shader_path me +:+ ".glsl") = true).
  { destruct (shader_path me) as [| c rest]; [discriminate Habs | exact Habs]. }
  rewrite Habs'. reflexivity.
Qed.

Lemma fallback_path_relative (me : LibplaceboFilter) :
  is_absolute (shader_path me) = false ->
  fallback_path me = "models/" +:+ shader_path me +:+ ".glsl".
Proof.
  unfold fallback_path, path_append. intros Hrel.
  assert (Habs : is_absolute (shader_path me +:+ ".glsl") = false).
  { destruct (shader_path me) as [| c rest]; [reflexivity | exact Hrel]. }
  rewrite Habs. reflexivity.
Qed.

(** * Outcomes of process_frame *)

Lemma PTR_MINUS_ONE_not_null : PTR_MINUS_ONE ≠ nullptr.
Proof. discriminate. Qed.

Lemma heap_sound_not_frame (s : St) (r : Z) :
  heap_sound (av s) -> ~ valid_ptr r -> ~ is_frame s r.
Proof. intros Hh Hr [f Hf]. apply Hr. eapply Hh. exact Hf. Qed.

(** C1: after a successful initialize, every call of process_frame returns,
    and what it returns is exactly one of a pointer to a live frame, the
    sentinel (AVFrame * )-1 or nullptr; when the retrieval answers the end of
    the stream the call returns the same sentinel as when it answers
    EAGAIN. *)
Theorem process_frame_tri_state (lib : Extern) (input_frame : Z) (s : St) :
  allocator_sound lib ->
  heap_sound (av s) ->
  buffersink_ctx (self s) ≠ nullptr ->
  exists (r : Z) (s' : St),
    process_frame lib input_frame s = (Done r, s') /\
    exactly_one (is_frame s' r) (r = PTR_MINUS_ONE) (r = nullptr) /\
    (next_alloc lib s ≠ nullptr -> 0 <= next_srcadd lib s ->
     (next_sinkget lib s).1 = AVERROR_EOF
     \/ (next_sinkget lib s).1 = AVERROR EAGAIN ->
     r = PTR_MINUS_ONE).
Proof.
  intros Halloc Hheap Hctx.
  assert (Hnot0 : ~ valid_ptr nullptr) by (unfold valid_ptr, nullptr; lia).
  assert (HnotM : ~ valid_ptr PTR_MINUS_ONE) by (unfold valid_ptr; lia).
  assert (Hold : forall (s' : St) (r : Z),
            frames (av s') = frames (av s) \/
            frames (av s') = delete (next_alloc lib s)
              (after_submit lib input_frame s) ->
            ~ valid_ptr r -> ~ is_frame s' r).
  { intros s' r Hfr Hr [f Hf]. apply Hr. destruct Hfr as [E | E].
    - rewrite E in Hf. eapply Hheap, Hf.
    - rewrite E in Hf. apply lookup_delete_Some in Hf as [Hne Hf].
      assert (Hlive : is_Some (after_submit lib input_frame s !! r))
        by (rewrite Hf; eauto).
      apply take_frame_is_Some in Hlive.
      rewrite lookup_insert_ne in Hlive by exact Hne.
      destruct Hlive as [g Hg]. eapply Hheap, Hg. }
  destruct (Halloc (n_alloc (av s))) as [Hnull | Hp];
    fold (next_alloc lib s) in *.
  { destruct (process_frame_alloc_failure lib input_frame s Hnull)
      as (s' & Hrun & _ & Hfr & _).
    exists nullptr, s'. split; [exact Hrun | split].
    - right; right. repeat split; [apply Hold; auto | discriminate].
    - intros Hne. contradiction. }
  assert (Ha : next_alloc lib s ≠ nullptr) by (unfold valid_ptr in Hp; unfold nullptr; lia).
  destruct (Z.lt_ge_cases (next_srcadd lib s) 0) as [Hs | Hs].
  { destruct (process_frame_submit_failure lib input_frame s Ha Hs)
      as (s' & Hrun & _ & Hfr & _).
    exists nullptr, s'. split; [exact Hrun | split].
    - right; right. repeat split; [ | discriminate].
      intros [f Hf]. rewrite Hfr, lookup_insert_ne in Hf by exact Ha.
      apply Hnot0. eapply Hheap, Hf.
    - intros _ Hge. lia. }
  destruct (Z.lt_ge_cases (next_sinkget lib s).1 0) as [Hk | Hk].
  - destruct (no_frame_yet (next_sinkget lib s).1) eqn:Hy.
    + destruct (process_frame_not_ready lib input_frame s Ha Hs Hy)
        as (s' & Hrun & _ & Hfr & _).
      exists PTR_MINUS_ONE, s'. split; [exact Hrun | split].
      * right; left. repeat split; [apply Hold; auto | ].
        apply PTR_MINUS_ONE_not_null.
      * reflexivity.
    + destruct (process_frame_retrieval_failure lib input_frame s Ha Hs Hk Hy)
        as (s' & Hrun & _ & Hfr & _).
      exists nullptr, s'. split; [exact Hrun | split].
      * right; right. repeat split; [apply Hold; auto | discriminate].
      * intros _ _ Hend. apply or_comm, no_frame_yet_iff in Hend. congruence.
  - destruct (process_frame_produced lib input_frame s Ha Hs Hk Hctx)
      as (s' & Hrun & _ & Hfr & _).
    exists (next_alloc lib s), s'. split; [exact Hrun | split].
    + left. repeat split.
      * unfold is_frame. rewrite Hfr, lookup_insert_eq. eauto.
      * unfold valid_ptr in Hp. lia.
      * exact Ha.
    + intros _ _ Hend. pose proof AVERROR_EOF_neg. pose proof AVERROR_EAGAIN_neg.
      destruct Hend as [E | E]; rewrite E in Hk; lia.
Qed.

Lemma allocator_sound_demo_lib : allocator_sound demo_lib.
Proof.
  intros n. unfold valid_ptr.
  destruct n as [| [| [| n]]]; cbn;
    [right | right | right | left; destruct n; reflexivity];
    split; reflexivity.
Defined.

Lemma heap_sound_fresh_libav : heap_sound fresh_libav.
Proof. intros p f H. cbn in H. rewrite lookup_empty in H. discriminate H. Defined.

Lemma process_frame_tri_state_witness :
  exists (r : Z) (s' : St),
    process_frame demo_lib 100 demo_ready = (Done r, s') /\
    exactly_one (is_frame s' r) (r = PTR_MINUS_ONE) (r = nullptr) /\
    (next_alloc demo_lib demo_ready ≠ nullptr ->
     0 <= next_srcadd demo_lib demo_ready ->
     (next_sinkget demo_lib demo_ready).1 = AVERROR_EOF
     \/ (next_sinkget demo_lib demo_ready).1 = AVERROR EAGAIN ->
     r = PTR_MINUS_ONE).
Proof.
  apply (process_frame_tri_state demo_lib 100 demo_ready).
  - exact allocator_sound_demo_lib.
  - exact heap_sound_fresh_libav.
  - cbn. discriminate.
Defined.

(** * The container of process_frame *)

(** On every path but the failed submission the container is returned or
    released. *)
Lemma process_frame_accounts_elsewhere (lib : Extern) (input_frame : Z)
    (s : St) :
  buffersink_ctx (self s) ≠ nullptr ->
  next_alloc lib s = nullptr \/ 0 <= next_srcadd lib s ->
  exists (r : Z) (s' : St),
    process_frame lib input_frame s = (Done r, s') /\
    accounted s' (next_alloc lib s) r.
Proof.
  intros Hctx Hpath. unfold accounted.
  destruct (Z.eq_dec (next_alloc lib s) nullptr) as [Hnull | Ha].
  { destruct (process_frame_alloc_failure lib input_frame s Hnull)
      as (s' & Hrun & _).
    exists nullptr, s'. split; [exact Hrun | left; exact Hnull]. }
  destruct Hpath as [Hnull | Hs]; [contradiction | ].
  destruct (Z.lt_ge_cases (next_sinkget lib s).1 0) as [Hk | Hk].
  - destruct (no_frame_yet (next_sinkget lib s).1) eqn:Hy.
    + destruct (process_frame_not_ready lib input_frame s Ha Hs Hy)
        as (s' & Hrun & _ & Hfr & _).
      exists PTR_MINUS_ONE, s'. split; [exact Hrun | ].
      right; right. rewrite Hfr. apply lookup_delete_eq.
    + destruct (process_frame_retrieval_failure lib input_frame s Ha Hs Hk Hy)
        as (s' & Hrun & _ & Hfr & _).
      exists nullptr, s'. split; [exact Hrun | ].
      right; right. rewrite Hfr. apply lookup_delete_eq.
  - destruct (process_frame_produced lib input_frame s Ha Hs Hk Hctx)
      as (s' & Hrun & _).
    exists (next_alloc lib s), s'. split; [exact Hrun | right; left; reflexivity].
Qed.

(** When the submission fails the container stays live, is not returned
    and is never passed to [av_frame_free]. *)
Lemma process_frame_submit_failure_keeps_container (lib : Extern)
    (input_frame : Z) (s : St) :
  next_alloc lib s ≠ nullptr ->
  next_srcadd lib s < 0 ->
  exists s' : St,
    process_frame lib input_frame s = (Done nullptr, s') /\
    frames (av s') !! next_alloc lib s = Some blank_frame /\
    ~ accounted s' (next_alloc lib s) nullptr.
Proof.
  intros Ha Hs.
  destruct (process_frame_submit_failure lib input_frame s Ha Hs)
    as (s' & Hrun & _ & Hfr & _).
  exists s'. split; [exact Hrun | ].
  assert (Hlive : frames (av s') !! next_alloc lib s = Some blank_frame)
    by (rewrite Hfr; apply lookup_insert_eq).
  split; [exact Hlive | ].
  unfold accounted. intros [H | [H | H]]; congruence.
Qed.

(** C2, at a failing input: when av_buffersrc_add_frame refuses the frame,
    process_frame returns nullptr while the container it allocated at 4096
    is still live, has not been passed to av_frame_free and is not what the
    call returned. *)
Theorem process_frame_leaks_on_submit_failure :
  exists s' : St,
    process_frame refusing_lib 100 demo_ready = (Done nullptr, s') /\
    frames (av s') !! 4096 = Some blank_frame /\
    trace (av s') =
      [Call_av_frame_alloc 4096;
       Call_av_buffersrc_add_frame 32 100 (-22);
       Call_fprintf_stderr ("Error while feeding the filter graph" +:+ LF)] /\
    ~ accounted s' 4096 nullptr.
Proof.
  eexists. split; [vm_compute; reflexivity | ].
  split; [vm_compute; reflexivity | ].
  split; [vm_compute; reflexivity | ].
  unfold accounted. intros [H | [H | H]]; vm_compute in H; discriminate H.
Qed.

(** * The session fields across process_frame *)

(** C10: whatever a call of process_frame returns, the eight fields of the
    session hold after the call the values they held before it. *)
Theorem process_frame_leaves_session_unchanged (lib : Extern)
    (input_frame : Z) (s : St) :
  let s' := (process_frame lib input_frame s).2 in
  output_width (self s') = output_width (self s) /\
  output_height (self s') = output_height (self s) /\
  shader_path (self s') = shader_path (self s) /\
  output_time_base (self s') = output_time_base (self s) /\
  filter_graph (self s') = filter_graph (self s) /\
  buffersrc_ctx (self s') = buffersrc_ctx (self s) /\
  buffersink_ctx (self s') = buffersink_ctx (self s) /\
  device_ctx (self s') = device_ctx (self s).
Proof.
  intros s'. subst s'. rewrite keeps_self_process_frame. repeat split.
Qed.

(** * flush *)

(** C7: when the submission of the end-of-input marker answers a negative
    code, flush returns that code at once, whatever the fuel: the vector is
    as it was, no retrieval has been asked for (the log only grew by the
    submission and the message on stderr) and no container was allocated. *)
Theorem flush_submit_failure_returns_at_once (lib : Extern) (fuel : nat)
    (processed_frames : list Z) (s : St) :
  next_srcadd lib s < 0 ->
  exists s' : St,
    flush lib fuel processed_frames s
      = (Done (next_srcadd lib s, processed_frames), s') /\
    trace (av s') = trace (av s) ++
      [Call_av_buffersrc_add_frame (buffersrc_ctx (self s)) nullptr
         (next_srcadd lib s);
       Call_fprintf_stderr ("Error while flushing filter graph" +:+ LF)] /\
    n_sinkget (av s') = n_sinkget (av s) /\
    n_alloc (av s') = n_alloc (av s) /\
    frames (av s') = frames (av s).
Proof.
  intros Hs.
  destruct (flush_submit_failure lib fuel processed_frames s Hs)
    as (s' & Hrun & _ & Hfr & Htr & Hna & _ & Hnk).
  exists s'. rewrite Nat.add_0_r in Hna, Hnk. auto.
Qed.

Lemma flush_submit_failure_returns_at_once_witness :
  exists s' : St,
    flush refusing_lib 0 [7; 9] demo_ready = (Done (-22, [7; 9]), s') /\
    trace (av s') = trace (av demo_ready) ++
      [Call_av_buffersrc_add_frame 32 nullptr (-22);
       Call_fprintf_stderr ("Error while flushing filter graph" +:+ LF)] /\
    n_sinkget (av s') = n_sinkget (av demo_ready) /\
    n_alloc (av s') = n_alloc (av demo_ready) /\
    frames (av s') = frames (av demo_ready).
Proof.
  apply (flush_submit_failure_returns_at_once refusing_lib 0 [7; 9] demo_ready).
  vm_compute. reflexivity.
Defined.

Section Flush.

Variable lib : Extern.
Variable s : St.
Variable fs : list AVFrame.

Local Abbreviation ps := (allocates lib (n_alloc (av s)) (length fs)).

Hypothesis Hctx : buffersink_ctx (self s) ≠ nullptr.
Hypothesis Hsrc : 0 <= next_srcadd lib s.
Hypothesis Hdel : delivers lib (n_sinkget (av s)) fs.
Hypothesis Hok : alloc_ok lib (n_alloc (av s)) (length fs).

(** flush up to the point where the frames [fs] have been retrieved. *)
Lemma flush_prefix (fuel : nat) (v : list Z) :
  exists s2 : St,
    flush lib (length fs + fuel) v s = flush_loop lib fuel (v ++ ps) s2 /\
    self s2 = self s /\
    n_alloc (av s2) = (n_alloc (av s) + length fs)%nat /\
    n_sinkget (av s2) = (n_sinkget (av s) + length fs)%nat /\
    (forall q : Z, q ∉ ps -> frames (av s2) !! q = frames (av s) !! q) /\
    holds_rescaled lib (self s) s2 ps fs.
Proof.
  destruct (flush_enters_loop lib (length fs + fuel) v s Hsrc)
    as (s1 & Hrun1 & Hself1 & Hfr1 & _ & Hna1 & _ & Hnk1).
  rewrite Nat.add_0_r in Hna1, Hnk1.
  destruct (flush_loop_prefix lib fs s1 v fuel) as (s2 & Hrun2 & Hd).
  - now rewrite Hself1.
  - now rewrite Hnk1.
  - now rewrite Hna1.
  - destruct Hd as (Hself2 & Hna2 & _ & Hnk2 & Hother & Hnew).
    rewrite Hna1 in Hrun2, Hother, Hnew.
    exists s2. rewrite Hrun1, Hrun2.
    repeat split; try congruence.
    + intros q Hq. rewrite (Hother q Hq). now rewrite Hfr1.
    + intros i p f Hp Hf. rewrite <- Hself1. eapply Hnew; eassumption.
Qed.

(** The drain ends normally after [fs]. *)
Lemma flush_drains (fuel : nat) (v : list Z) :
  no_frame_yet
    (buffersink_get_ans lib (n_sinkget (av s) + length fs)%nat).1 = true ->
  frame_alloc_ans lib (n_alloc (av s) + length fs)%nat ≠ nullptr ->
  frame_alloc_ans lib (n_alloc (av s) + length fs)%nat ∉ ps ->
  (length fs < fuel)%nat ->
  exists s' : St,
    flush lib fuel v s = (Done (0, v ++ ps), s') /\
    self s' = self s /\
    holds_rescaled lib (self s) s' ps fs /\
    n_sinkget (av s') = S (n_sinkget (av s) + length fs).
Proof.
  intros Hend Hlast Hfresh Hfuel.
  destruct fuel as [| fuel]; [lia | ].
  destruct (flush_prefix (S (fuel - length fs)) v)
    as (s2 & Hrun & Hself & Hna & Hnk & _ & Hnew).
  replace (length fs + S (fuel - length fs))%nat with (S fuel) in Hrun by lia.
  destruct (flush_loop_end lib (fuel - length fs) (v ++ ps) s2)
    as (s' & Hrun' & Hself' & Hfr' & _ & _ & _ & Hnk').
  - unfold next_alloc. now rewrite Hna.
  - unfold next_sinkget. now rewrite Hnk.
  - exists s'. rewrite Hrun, Hrun'.
    repeat split; try congruence; try lia.
    intros i p f Hp Hf. rewrite Hfr'. unfold next_alloc. rewrite Hna.
    assert (Hne : frame_alloc_ans lib (n_alloc (av s) + length fs)%nat ≠ p).
    { intros E. apply Hfresh. rewrite E. eapply list_elem_of_lookup_2, Hp. }
    rewrite lookup_delete_ne, lookup_insert_ne by exact Hne.
    eapply Hnew; eassumption.
Qed.

(** The drain is cut short after [fs] by a failed allocation. *)
Lemma flush_drains_then_enomem (fuel : nat) (v : list Z) :
  frame_alloc_ans lib (n_alloc (av s) + length fs)%nat = nullptr ->
  (length fs < fuel)%nat ->
  exists s' : St,
    flush lib fuel v s = (Done (AVERROR ENOMEM, v ++ ps), s') /\
    holds_rescaled lib (self s) s' ps fs.
Proof.
  intros Hlast Hfuel.
  destruct fuel as [| fuel]; [lia | ].
  destruct (flush_prefix (S (fuel - length fs)) v)
    as (s2 & Hrun & Hself & Hna & Hnk & _ & Hnew).
  replace (length fs + S (fuel - length fs))%nat with (S fuel) in Hrun by lia.
  destruct (flush_loop_enomem lib (fuel - length fs) (v ++ ps) s2)
    as (s' & Hrun' & _ & Hfr' & _).
  - unfold next_alloc. now rewrite Hna.
  - exists s'. rewrite Hrun, Hrun'. split; [reflexivity | ].
    intros i p f Hp Hf. rewrite Hfr'. eapply Hnew; eassumption.
Qed.

(** The drain is cut short after [fs] by a retrieval error. *)
Lemma flush_drains_then_fatal (fuel : nat) (v : list Z) :
  let r := (buffersink_get_ans lib (n_sinkget (av s) + length fs)%nat).1 in
  r < 0 -> no_frame_yet r = false ->
  frame_alloc_ans lib (n_alloc (av s) + length fs)%nat ≠ nullptr ->
  frame_alloc_ans lib (n_alloc (av s) + length fs)%nat ∉ ps ->
  (length fs < fuel)%nat ->
  exists s' : St,
    flush lib fuel v s = (Done (r, v ++ ps), s') /\
    holds_rescaled lib (self s) s' ps fs.
Proof.
  intros r Hneg Hnot Hlast Hfresh Hfuel. subst r.
  destruct fuel as [| fuel]; [lia | ].
  destruct (flush_prefix (S (fuel - length fs)) v)
    as (s2 & Hrun & Hself & Hna & Hnk & _ & Hnew).
  replace (length fs + S (fuel - length fs))%nat with (S fuel) in Hrun by lia.
  destruct (flush_loop_fatal lib (fuel - length fs) (v ++ ps) s2)
    as (s' & Hrun' & _ & Hfr' & _).
  - unfold next_alloc. now rewrite Hna.
  - unfold next_sinkget. now rewrite Hnk.
  - unfold next_sinkget. now rewrite Hnk.
  - exists s'. rewrite Hrun, Hrun'. unfold next_sinkget. rewrite Hnk.
    split; [reflexivity | ].
    intros i p f Hp Hf. rewrite Hfr'. unfold next_alloc. rewrite Hna.
    assert (Hne : frame_alloc_ans lib (n_alloc (av s) + length fs)%nat ≠ p).
    { intros E. apply Hfresh. rewrite E. eapply list_elem_of_lookup_2, Hp. }
    rewrite lookup_delete_ne, lookup_insert_ne by exact Hne.
    eapply Hnew; eassumption.
Qed.

End Flush.

(** C3: when the pipeline still holds the frames fs, flush appends to the
    vector one container per frame of fs, in the order the frames are
    retrieved, each holding its frame (rescaled); the loop stops at the
    first retrieval that answers EAGAIN or the end of the stream, and flush
    returns 0.  With no frame held, flush returns 0 and the vector as it
    was. *)
Theorem flush_drains_in_order (lib : Extern) (s : St) (fs : list AVFrame)
    (fuel : nat) (v : list Z) :
  buffersink_ctx (self s) ≠ nullptr ->
  0 <= next_srcadd lib s ->
  delivers lib (n_sinkget (av s)) fs ->
  no_frame_yet
    (buffersink_get_ans lib (n_sinkget (av s) + length fs)%nat).1 = true ->
  alloc_ok lib (n_alloc (av s)) (S (length fs)) ->
  (length fs < fuel)%nat ->
  exists (ps : list Z) (s' : St),
    flush lib fuel v s = (Done (0, v ++ ps), s') /\
    ps = allocates lib (n_alloc (av s)) (length fs) /\
    length ps = length fs /\
    holds_rescaled lib (self s) s' ps fs /\
    n_sinkget (av s') = S (n_sinkget (av s) + length fs) /\
    (fs = [] -> flush lib fuel v s = (Done (0, v), s')).
Proof.
  intros Hctx Hsrc Hdel Hend Hok Hfuel.
  apply alloc_ok_last in Hok as (Hok & Hlast & Hfresh).
  destruct (flush_drains lib s fs Hctx Hsrc Hdel Hok fuel v
              Hend Hlast Hfresh Hfuel) as (s' & Hrun & _ & Hnew & Hnk).
  exists (allocates lib (n_alloc (av s)) (length fs)), s'.
  repeat split; auto.
  - unfold allocates. now rewrite length_map, length_seq.
  - intros ->. rewrite Hrun. cbn. now rewrite app_nil_r.
Qed.

Lemma delivers_demo_lib : delivers demo_lib 0 [frame_a; frame_b].
Proof.
  intros i f H. destruct i as [| [| i]]; cbn in H.
  - injection H as <-. split; [cbn; lia | reflexivity].
  - injection H as <-. split; [cbn; lia | reflexivity].
  - discriminate H.
Defined.

Lemma alloc_ok_demo_lib (n : nat) : (n <= 3)%nat -> alloc_ok demo_lib 0 n.
Proof.
  intros Hn. split.
  - destruct n as [| [| [| [| n]]]]; [ | | | | lia]; cbn;
      repeat constructor; discriminate.
  - apply (bool_decide_unpack _).
    destruct n as [| [| [| [| n]]]]; [ | | | | lia]; vm_compute; reflexivity.
Defined.

Lemma flush_drains_in_order_witness :
  exists (ps : list Z) (s' : St),
    flush demo_lib 5 [] demo_ready = (Done (0, [] ++ ps), s') /\
    ps = allocates demo_lib (n_alloc (av demo_ready))
           (length [frame_a; frame_b]) /\
    length ps = length [frame_a; frame_b] /\
    holds_rescaled demo_lib (self demo_ready) s' ps [frame_a; frame_b] /\
    n_sinkget (av s')
      = S (n_sinkget (av demo_ready) + length [frame_a; frame_b]) /\
    ([frame_a; frame_b] = [] ->
     flush demo_lib 5 [] demo_ready = (Done (0, []), s')).
Proof.
  apply (flush_drains_in_order demo_lib demo_ready [frame_a; frame_b] 5 []).
  - cbn. discriminate.
  - cbn. lia.
  - exact delivers_demo_lib.
  - vm_compute. reflexivity.
  - apply alloc_ok_demo_lib. cbn. lia.
  - cbn. lia.
Defined.

(** C9: when the drain is cut short after the frames fs have been
    retrieved, by an allocation that fails or by a retrieval that answers an
    error other than EAGAIN and the end of the stream, flush returns the
    error and the vector has grown by exactly the containers of fs, which
    still hold their rescaled frames: nothing is rolled back. *)
Theorem flush_error_keeps_retrieved (lib : Extern) (s : St)
    (fs : list AVFrame) (fuel : nat) (v : list Z) :
  buffersink_ctx (self s) ≠ nullptr ->
  0 <= next_srcadd lib s ->
  delivers lib (n_sinkget (av s)) fs ->
  alloc_ok lib (n_alloc (av s)) (length fs) ->
  (length fs < fuel)%nat ->
  let ps := allocates lib (n_alloc (av s)) (length fs) in
  let p := frame_alloc_ans lib (n_alloc (av s) + length fs)%nat in
  let r := (buffersink_get_ans lib (n_sinkget (av s) + length fs)%nat).1 in
  (p = nullptr ->
   exists s' : St,
     flush lib fuel v s = (Done (AVERROR ENOMEM, v ++ ps), s') /\
     holds_rescaled lib (self s) s' ps fs) /\
  (p ≠ nullptr -> p ∉ ps -> r < 0 -> no_frame_yet r = false ->
   exists s' : St,
     flush lib fuel v s = (Done (r, v ++ ps), s') /\
     holds_rescaled lib (self s) s' ps fs).
Proof.
  intros Hctx Hsrc Hdel Hok Hfuel ps p r. split.
  - intros Hnull.
    exact (flush_drains_then_enomem lib s fs Hctx Hsrc Hdel Hok fuel v
             Hnull Hfuel).
  - intros Hlast Hfresh Hneg Hnot.
    exact (flush_drains_then_fatal lib s fs Hctx Hsrc Hdel Hok fuel v
             Hneg Hnot Hlast Hfresh Hfuel).
Qed.

Ltac delivers_by_script :=
  let i := fresh "i" in
  let f := fresh "f" in
  let H := fresh "H" in
  intros i f H; destruct i as [| [| i]]; cbn in H;
  [ injection H as <-; split; [cbn; lia | reflexivity]
  | injection H as <-; split; [cbn; lia | reflexivity]
  | discriminate H ].

Ltac alloc_ok_by_script :=
  split;
  [ cbn; repeat constructor; discriminate
  | apply (bool_decide_unpack _); vm_compute; reflexivity ].

Lemma flush_error_keeps_retrieved_witness :
  (exists s' : St,
     flush starved_lib 5 [] demo_ready
       = (Done (AVERROR ENOMEM, [4096; 8192]), s') /\
     holds_rescaled starved_lib (self demo_ready) s' [4096; 8192]
       [frame_a; frame_b]) /\
  (exists s' : St,
     flush broken_lib 5 [] demo_ready = (Done (-22, [4096; 8192]), s') /\
     holds_rescaled broken_lib (self demo_ready) s' [4096; 8192]
       [frame_a; frame_b]).
Proof.
  split.
  - apply (flush_error_keeps_retrieved starved_lib demo_ready
             [frame_a; frame_b] 5 []).
    + cbn. discriminate.
    + cbn. lia.
    + delivers_by_script.
    + alloc_ok_by_script.
    + cbn. lia.
    + reflexivity.
  - apply (flush_error_keeps_retrieved broken_lib demo_ready
             [frame_a; frame_b] 5 []).
    + cbn. discriminate.
    + cbn. lia.
    + delivers_by_script.
    + alloc_ok_by_script.
    + cbn. lia.
    + cbn. discriminate.
    + apply (bool_decide_unpack _). vm_compute. reflexivity.
    + cbn. lia.
    + vm_compute. reflexivity.
Defined.

(** * Timestamps of emitted frames *)

(** C5: a frame process_frame returns, and every frame flush appends, holds
    the timestamp the retrieval delivered, rescaled by av_rescale_q from the
    time base of the sink's input link to the captured output_time_base.
    For time bases src and dst the rescaled value r of a timestamp a is the
    integer nearest to a * (src.num * dst.den) / (dst.num * src.den); it is
    that quotient itself when dst.num * src.den divides
    a * src.num * dst.den; and it is monotonic: timestamps in non-decreasing
    order are rescaled to timestamps in non-decreasing order. *)
Theorem emitted_pts_rescaled (lib : Extern) :
  (forall (input_frame : Z) (s s' : St) (r : Z),
     buffersink_ctx (self s) ≠ nullptr ->
     process_frame lib input_frame s = (Done r, s') ->
     r ≠ nullptr -> r ≠ PTR_MINUS_ONE ->
     frames (av s') !! r
       = Some {| pts := av_rescale_q (pts (next_sinkget lib s).2)
                          (link_time_base lib (buffersink_ctx (self s)))
                          (output_time_base (self s));
                 picture := picture (next_sinkget lib s).2 |}) /\
  (forall (s : St) (fs : list AVFrame) (fuel : nat) (v : list Z),
     buffersink_ctx (self s) ≠ nullptr ->
     0 <= next_srcadd lib s ->
     delivers lib (n_sinkget (av s)) fs ->
     no_frame_yet
       (buffersink_get_ans lib (n_sinkget (av s) + length fs)%nat).1 = true ->
     alloc_ok lib (n_alloc (av s)) (S (length fs)) ->
     (length fs < fuel)%nat ->
     exists (ps : list Z) (s' : St),
       flush lib fuel v s = (Done (0, v ++ ps), s') /\
       length ps = length fs /\
       forall (i : nat) (p : Z) (f : AVFrame),
         ps !! i = Some p -> fs !! i = Some f ->
         frames (av s') !! p
           = Some {| pts := av_rescale_q (pts f)
                              (link_time_base lib (buffersink_ctx (self s)))
                              (output_time_base (self s));
                     picture := picture f |}) /\
  (forall (a : Z) (src dst : AVRational),
     valid_time_base src -> valid_time_base dst ->
     2 * Z.abs (av_rescale_q a src dst * (num dst * den src)
                - a * (num src * den dst)) <= num dst * den src) /\
  (forall (a : Z) (src dst : AVRational),
     valid_time_base src -> valid_time_base dst ->
     (num dst * den src | a * num src * den dst) ->
     av_rescale_q a src dst * (num dst * den src) = a * num src * den dst) /\
  (forall (l : list Z) (src dst : AVRational),
     valid_time_base src -> valid_time_base dst ->
     non_decreasing l ->
     non_decreasing (map (fun a => av_rescale_q a src dst) l)).
Proof.
  split; [ | split; [ | split; [ | split]]].
  - intros input_frame s s' r Hctx Hrun Hr0 HrM.
    destruct (Z.eq_dec (next_alloc lib s) nullptr) as [Hnull | Ha].
    { destruct (process_frame_alloc_failure lib input_frame s Hnull)
        as (s1 & Hrun1 & _). congruence. }
    destruct (Z.lt_ge_cases (next_srcadd lib s) 0) as [Hs | Hs].
    { destruct (process_frame_submit_failure lib input_frame s Ha Hs)
        as (s1 & Hrun1 & _). congruence. }
    destruct (Z.lt_ge_cases (next_sinkget lib s).1 0) as [Hk | Hk].
    + destruct (no_frame_yet (next_sinkget lib s).1) eqn:Hy.
      * destruct (process_frame_not_ready lib input_frame s Ha Hs Hy)
          as (s1 & Hrun1 & _). congruence.
      * destruct (process_frame_retrieval_failure lib input_frame s
                    Ha Hs Hk Hy) as (s1 & Hrun1 & _). congruence.
    + destruct (process_frame_produced lib input_frame s Ha Hs Hk Hctx)
        as (s1 & Hrun1 & _ & Hfr & _).
      rewrite Hrun1 in Hrun. injection Hrun as <- <-.
      rewrite Hfr. apply lookup_insert_eq.
  - intros s fs fuel v Hctx Hsrc Hdel Hend Hok Hfuel.
    apply alloc_ok_last in Hok as (Hok & Hlast & Hfresh).
    destruct (flush_drains lib s fs Hctx Hsrc Hdel Hok fuel v
                Hend Hlast Hfresh Hfuel) as (s' & Hrun & _ & Hnew & _).
    exists (allocates lib (n_alloc (av s)) (length fs)), s'.
    split; [exact Hrun | split].
    + unfold allocates. now rewrite length_map, length_seq.
    + exact Hnew.
  - intros a src dst. apply av_rescale_q_nearest.
  - intros a src dst. apply av_rescale_q_exact.
  - intros l src dst. apply av_rescale_q_non_decreasing.
Qed.

Lemma non_decreasing_0_1_2 : non_decreasing [0; 1; 2].
Proof.
  intros i j x y Hij Hx Hy.
  destruct i as [| [| [| i]]]; destruct j as [| [| [| j]]];
    cbn in Hx, Hy; try discriminate;
    injection Hx as <-; injection Hy as <-; lia.
Defined.

Lemma valid_time_base_25 : valid_time_base tb_25.
Proof. split; reflexivity. Defined.
Lemma valid_time_base_30 : valid_time_base tb_30.
Proof. split; reflexivity. Defined.

Lemma emitted_pts_rescaled_witness :
  frames (av (process_frame demo_lib 100 demo_ready).2) !! 4096
    = Some {| pts := 6; picture := 1 |} /\
  (exists (ps : list Z) (s' : St),
     flush demo_lib 5 [] demo_ready = (Done (0, ps), s') /\
     length ps = 2%nat /\
     forall (i : nat) (p : Z) (f : AVFrame),
       ps !! i = Some p -> [frame_a; frame_b] !! i = Some f ->
       frames (av s') !! p
         = Some {| pts := av_rescale_q (pts f) tb_25 tb_30;
                   picture := picture f |}) /\
  2 * Z.abs (av_rescale_q 6 tb_25 tb_30 * (1 * 25) - 6 * (1 * 30)) <= 1 * 25 /\
  av_rescale_q 5 tb_25 tb_30 * (1 * 25) = 5 * 1 * 30 /\
  non_decreasing (map (fun a => av_rescale_q a tb_25 tb_30) [0; 1; 2]).
Proof.
  destruct (emitted_pts_rescaled demo_lib) as (H1 & H2 & H3 & H4 & H5).
  split; [ | split; [ | split; [ | split]]].
  - apply (H1 100 demo_ready (process_frame demo_lib 100 demo_ready).2 4096).
    + cbn. discriminate.
    + vm_compute. reflexivity.
    + discriminate.
    + discriminate.
  - apply (H2 demo_ready [frame_a; frame_b] 5%nat []).
    + cbn. discriminate.
    + cbn. lia.
    + exact delivers_demo_lib.
    + vm_compute. reflexivity.
    + apply alloc_ok_demo_lib. cbn. lia.
    + cbn. lia.
  - apply (H3 6 tb_25 tb_30 valid_time_base_25 valid_time_base_30).
  - apply (H4 5 tb_25 tb_30 valid_time_base_25 valid_time_base_30).
    exists 6. reflexivity.
  - apply (H5 [0; 1; 2] tb_25 tb_30 valid_time_base_25 valid_time_base_30).
    exact non_decreasing_0_1_2.
Defined.

(** * Teardown *)

(** C6: the destructor always returns; it releases, in this order, the
    source endpoint, the sink endpoint, the device reference and the graph,
    skipping each handle that is null, and leaves the four handles null and
    the other fields as they were.  On a session whose handles are all null
    it does nothing: so on a session just constructed, and on one whose init
    did not return 0. *)
Theorem dtor_releases_in_order (lib : Extern) :
  (forall s : St,
     exists s' : St,
       LibplaceboFilter_dtor s = (Done tt, s') /\
       trace (av s') = trace (av s) ++ release_calls (self s) /\
       all_null (self s') /\
       self s' = cleared (self s) /\
       frames (av s') = frames (av s)) /\
  (forall s : St,
     all_null (self s) -> LibplaceboFilter_dtor s = (Done tt, s)) /\
  (forall (width height : Z) (shader : string) (garbage : AVRational)
          (w : Libav),
     let s := {| self := LibplaceboFilter_ctor width height shader garbage;
                 av := w |} in
     LibplaceboFilter_dtor s = (Done tt, s)) /\
  (forall (dec_ctx enc_ctx : AVCodecContext) (s s1 : St) (res : Res Z),
     all_null (self s) ->
     init lib dec_ctx enc_ctx s = (res, s1) ->
     res ≠ Done 0 ->
     LibplaceboFilter_dtor s1 = (Done tt, s1)).
Proof.
  split; [ | split; [ | split]].
  - intros s. destruct (dtor_runs s) as (s' & Hrun & Hself & Hfr & Htr).
    exists s'. repeat split; auto; rewrite Hself; reflexivity.
  - intros s. apply dtor_noop.
  - intros width height shader garbage w s. apply dtor_noop.
    repeat split.
  - intros dec_ctx enc_ctx s s1 res Hnull Hinit Hres.
    apply dtor_noop.
    destruct (fs_readable lib (shader_path (self s))) eqn:Hr.
    + rewrite (init_direct lib dec_ctx enc_ctx s Hr) in Hinit.
      destruct (build_ans lib dec_ctx (output_width (self s))
                  (output_height (self s)) (shader_path (self s)))
        as [g a b d | code] eqn:Hb.
      * rewrite (init_libplacebo_ok lib _ _ _ _ _ _ _ _ _ Hb) in Hinit.
        injection Hinit as <- <-. contradiction.
      * rewrite (init_libplacebo_err lib _ _ _ _ _ _ Hb) in Hinit.
        injection Hinit as <- <-. exact Hnull.
    + destruct (fs_locate lib (fallback_path (self s))) as [found |] eqn:Hl.
      * rewrite (init_fallback lib dec_ctx enc_ctx s found Hr Hl) in Hinit.
        destruct (build_ans lib dec_ctx (output_width (self s))
                    (output_height (self s)) found)
          as [g a b d | code] eqn:Hb.
        -- rewrite (init_libplacebo_ok lib _ _ _ _ _ _ _ _ _ Hb) in Hinit.
           injection Hinit as <- <-. contradiction.
        -- rewrite (init_libplacebo_err lib _ _ _ _ _ _ Hb) in Hinit.
           injection Hinit as <- <-. exact Hnull.
      * rewrite (init_unresolved lib dec_ctx enc_ctx s Hr Hl) in Hinit.
        injection Hinit as <- <-. exact Hnull.
Qed.

Lemma dtor_releases_in_order_witness :
  (exists s' : St,
     LibplaceboFilter_dtor demo_ready = (Done tt, s') /\
     trace (av s') =
       [Call_avfilter_free 32; Call_avfilter_free 48;
        Call_av_buffer_unref 64; Call_avfilter_graph_free 16] /\
     all_null (self s') /\
     self s' = cleared (self demo_ready) /\
     frames (av s') = frames (av demo_ready)) /\
  LibplaceboFilter_dtor demo_new = (Done tt, demo_new) /\
  LibplaceboFilter_dtor (init unbuildable_lib dec_demo enc_demo demo_new).2
    = (Done tt, (init unbuildable_lib dec_demo enc_demo demo_new).2).
Proof.
  destruct (dtor_releases_in_order unbuildable_lib) as (H1 & H2 & _ & H4).
  split; [ | split].
  - apply (H1 demo_ready).
  - apply (H2 demo_new). repeat split.
  - apply (H4 dec_demo enc_demo demo_new _ (Done (-12))).
    + repeat split.
    + vm_compute. reflexivity.
    + discriminate.
Defined.

(** * Resolution of the shader path *)

(** C4, as amended: init first asks whether the shader path itself is
    readable and, if it is, hands it to the builder as it is, without
    consulting the locator; otherwise it asks the locator for
    path("models") / (shader_path + ".glsl"), which is
    models/<shader_path>.glsl when the shader path is not absolute (and
    <shader_path>.glsl itself when it is), and hands what the locator found
    to the builder; when the locator finds nothing init is left by the
    locator's exception, with no field of the session assigned and the
    builder never called. *)
Theorem init_resolves_shader_path (lib : Extern)
    (dec_ctx enc_ctx : AVCodecContext) (s : St) :
  let id := shader_path (self s) in
  let fallback := path_append "models" (id +:+ ".glsl") in
  (fs_readable lib id = true ->
   init lib dec_ctx enc_ctx s =
     init_libplacebo lib dec_ctx (output_width (self s))
       (output_height (self s)) id (at_build enc_ctx [] s)) /\
  (fs_readable lib id = false ->
   forall found : string,
     fs_locate lib fallback = Some found ->
     init lib dec_ctx enc_ctx s =
       init_libplacebo lib dec_ctx (output_width (self s))
         (output_height (self s)) found
         (at_build enc_ctx [Call_find_resource_file fallback] s)) /\
  (fs_readable lib id = false ->
   fs_locate lib fallback = None ->
   exists s' : St,
     init lib dec_ctx enc_ctx s = (Stop (Exception "find_resource_file"), s') /\
     self s' = self s /\
     frames (av s') = frames (av s) /\
     trace (av s') = trace (av s) ++ [Call_find_resource_file fallback]) /\
  (is_absolute id = false -> fallback = "models/" +:+ id +:+ ".glsl") /\
  (is_absolute id = true -> fallback = id +:+ ".glsl").
Proof.
  intros id fallback. split; [ | split; [ | split; [ | split]]].
  - apply init_direct.
  - intros Hr found Hl. now apply init_fallback.
  - intros Hr Hl. eexists. split; [now apply init_unresolved | ].
    repeat split.
  - apply fallback_path_relative.
  - apply fallback_path_absolute.
Qed.

Lemma init_resolves_shader_path_witness :
  (exists s' : St,
     init direct_lib dec_demo enc_demo demo_new = (Done 0, s') /\
     trace (av s') = [Call_init_libplacebo 1920 1080 "upscale" 0]) /\
  (exists s' : St,
     init demo_lib dec_demo enc_demo demo_new = (Done 0, s') /\
     trace (av s') =
       [Call_find_resource_file "models/upscale.glsl";
        Call_init_libplacebo 1920 1080
          "/usr/share/video2x/models/upscale.glsl" 0]) /\
  (exists s' : St,
     init missing_lib dec_demo enc_demo demo_new
       = (Stop (Exception "find_resource_file"), s') /\
     self s' = self demo_new /\
     frames (av s') = frames (av demo_new) /\
     trace (av s') = trace (av demo_new)
                     ++ [Call_find_resource_file "models/upscale.glsl"]) /\
  path_append "models" ("upscale" +:+ ".glsl") = "models/upscale.glsl" /\
  path_append "models" ("/opt/shaders/anime4k" +:+ ".glsl")
    = "/opt/shaders/anime4k.glsl".
Proof.
  split; [ | split; [ | split; [ | split]]].
  - destruct (init_resolves_shader_path direct_lib dec_demo enc_demo demo_new)
      as (H1 & _).
    eexists. split; [rewrite H1; reflexivity | reflexivity].
  - destruct (init_resolves_shader_path demo_lib dec_demo enc_demo demo_new)
      as (_ & H2 & _).
    eexists. split;
      [ rewrite (H2 eq_refl "/usr/share/video2x/models/upscale.glsl" eq_refl);
        reflexivity
      | reflexivity ].
  - destruct (init_resolves_shader_path missing_lib dec_demo enc_demo demo_new)
      as (_ & _ & H3 & _).
    apply (H3 eq_refl eq_refl).
  - destruct (init_resolves_shader_path demo_lib dec_demo enc_demo demo_new)
      as (_ & _ & _ & H4 & _).
    apply (H4 eq_refl).
  - destruct (init_resolves_shader_path missing_lib dec_demo enc_demo
                absolute_new) as (_ & _ & _ & _ & H5).
    apply (H5 eq_refl).
Defined.

(** C4 as stated fails for an absolute shader path: with
    /opt/shaders/anime4k not readable, the locator is asked for
    /opt/shaders/anime4k.glsl and never for
    models//opt/shaders/anime4k.glsl. *)
Lemma init_absolute_shader_path_leaves_models :
  fs_readable missing_lib (shader_path (self absolute_new)) = false /\
  trace (av (init missing_lib dec_demo enc_demo absolute_new).2)
    = [Call_find_resource_file "/opt/shaders/anime4k.glsl"] /\
  Call_find_resource_file
    ("models/" +:+ shader_path (self absolute_new) +:+ ".glsl")
    ∉ trace (av (init missing_lib dec_demo enc_demo absolute_new).2).
Proof.
  split; [reflexivity | split; [reflexivity | ]].
  intros Hin. apply list_elem_of_singleton in Hin. discriminate Hin.
Qed.

(** * All handles or none *)

Lemma init_libplacebo_all_or_none (lib : Extern) (dec_ctx : AVCodecContext)
    (width height : Z) (shader : string) (s s' : St) (res : Res Z) :
  builder_sound lib ->
  all_null (self s) ->
  init_libplacebo lib dec_ctx width height shader s = (res, s') ->
  (res = Done 0 /\ all_bound (self s')) \/
  ((exists code, res = Done code /\ code < 0) /\ all_null (self s')).
Proof.
  intros Hb Hnull Hrun. specialize (Hb dec_ctx width height shader).
  destruct (build_ans lib dec_ctx width height shader)
    as [g a b d | code] eqn:E.
  - rewrite (init_libplacebo_ok lib _ _ _ _ _ _ _ _ _ E) in Hrun.
    injection Hrun as <- <-. left. split; [reflexivity | exact Hb].
  - rewrite (init_libplacebo_err lib _ _ _ _ _ _ E) in Hrun.
    injection Hrun as <- <-. right. split; [eauto | exact Hnull].
Qed.

(** C8: on a session whose handles are all null, init ends with the four
    handles all bound when it returns 0, and all null when it returns an
    error code or is left by an exception; process_frame and flush then
    keep the handles all bound or all null, and the destructor leaves them
    all null. *)
Theorem handles_all_or_none_kept (lib : Extern) :
  builder_sound lib ->
  (forall (dec_ctx enc_ctx : AVCodecContext) (s s' : St) (res : Res Z),
     all_null (self s) ->
     init lib dec_ctx enc_ctx s = (res, s') ->
     (res = Done 0 /\ all_bound (self s')) \/
     (res ≠ Done 0 /\ all_null (self s'))) /\
  (forall (input_frame : Z) (s : St),
     handles_all_or_none (self s) ->
     handles_all_or_none (self (process_frame lib input_frame s).2)) /\
  (forall (fuel : nat) (v : list Z) (s : St),
     handles_all_or_none (self s) ->
     handles_all_or_none (self (flush lib fuel v s).2)) /\
  (forall s : St, all_null (self (LibplaceboFilter_dtor s).2)).
Proof.
  intros Hb. split; [ | split; [ | split]].
  - intros dec_ctx enc_ctx s s' res Hnull Hinit.
    assert (Hcode : forall code : Z, code < 0 -> @Done Z code ≠ Done 0).
    { intros code Hneg E. injection E as ->. lia. }
    destruct (fs_readable lib (shader_path (self s))) eqn:Hr.
    + rewrite (init_direct lib dec_ctx enc_ctx s Hr) in Hinit.
      apply (init_libplacebo_all_or_none lib _ _ _ _ _ _ _ Hb) in Hinit
        as [Hok | [(code & -> & Hneg) Hnone]]; [auto | | exact Hnull].
      right. split; [now apply Hcode | exact Hnone].
    + destruct (fs_locate lib (fallback_path (self s))) as [found |] eqn:Hl.
      * rewrite (init_fallback lib dec_ctx enc_ctx s found Hr Hl) in Hinit.
        apply (init_libplacebo_all_or_none lib _ _ _ _ _ _ _ Hb) in Hinit
          as [Hok | [(code & -> & Hneg) Hnone]]; [auto | | exact Hnull].
        right. split; [now apply Hcode | exact Hnone].
      * rewrite (init_unresolved lib dec_ctx enc_ctx s Hr Hl) in Hinit.
        injection Hinit as <- <-. right. split; [discriminate | exact Hnull].
  - intros input_frame s Hinv. now rewrite keeps_self_process_frame.
  - intros fuel v s Hinv. now rewrite keeps_self_flush.
  - intros s. destruct (dtor_runs s) as (s' & Hrun & Hself & _).
    rewrite Hrun. cbn. rewrite Hself. repeat split.
Qed.

Lemma builder_sound_demo_lib : builder_sound demo_lib.
Proof. intros dec_ctx width height shader. cbn. repeat split; discriminate. Defined.

Lemma builder_sound_unbuildable_lib : builder_sound unbuildable_lib.
Proof. intros dec_ctx width height shader. reflexivity. Defined.

Lemma handles_all_or_none_kept_witness :
  ((init demo_lib dec_demo enc_demo demo_new).1 = Done 0 /\
   all_bound (self (init demo_lib dec_demo enc_demo demo_new).2)) /\
  ((init unbuildable_lib dec_demo enc_demo demo_new).1 ≠ Done 0 /\
   all_null (self (init unbuildable_lib dec_demo enc_demo demo_new).2)) /\
  handles_all_or_none (self (process_frame demo_lib 100 demo_ready).2) /\
  handles_all_or_none (self (flush demo_lib 5 [] demo_ready).2).
Proof.
  destruct (handles_all_or_none_kept demo_lib builder_sound_demo_lib)
    as (H1 & H2 & H3 & _).
  destruct (handles_all_or_none_kept unbuildable_lib
              builder_sound_unbuildable_lib) as (H1' & _).
  split; [ | split; [ | split]].
  - destruct (H1 dec_demo enc_demo demo_new
                (init demo_lib dec_demo enc_demo demo_new).2
                (init demo_lib dec_demo enc_demo demo_new).1)
      as [Hok | [Hne _]].
    + repeat split.
    + vm_compute. reflexivity.
    + exact Hok.
    + exfalso. apply Hne. vm_compute. reflexivity.
  - destruct (H1' dec_demo enc_demo demo_new
                (init unbuildable_lib dec_demo enc_demo demo_new).2
                (init unbuildable_lib dec_demo enc_demo demo_new).1)
      as [[Hok _] | Hfail].
    + repeat split.
    + vm_compute. reflexivity.
    + exfalso. vm_compute in Hok. discriminate Hok.
    + exact Hfail.
  - apply (H2 100 demo_ready). left. repeat split; discriminate.
  - apply (H3 5%nat [] demo_ready). left. repeat split; discriminate.
Defined.

(** * Further properties of the member functions *)

(** ** The remaining paths: a frame is ready but the sink handle is null *)

Lemma process_frame_null_sink (lib : Extern) (input_frame : Z) (s : St) :
  next_alloc lib s ≠ nullptr ->
  0 <= next_srcadd lib s ->
  0 <= (next_sinkget lib s).1 ->
  buffersink_ctx (self s) = nullptr ->
  exists s',
    process_frame lib input_frame s = (Stop (BadDeref nullptr), s') /\
    effect s s'
      (<[next_alloc lib s := (next_sinkget lib s).2]>
         (after_submit lib input_frame s))
      [Call_av_frame_alloc (next_alloc lib s);
       Call_av_buffersrc_add_frame (buffersrc_ctx (self s)) input_frame
         (next_srcadd lib s);
       Call_av_buffersink_get_frame (buffersink_ctx (self s))
         (next_alloc lib s) (next_sinkget lib s).1]
      1 1 1.
Proof.
  intros Ha Hs Hpos Hctx.
  unfold next_alloc, next_srcadd, next_sinkget in *.
  apply eqb_nullptr_false in Ha. apply Z.ltb_ge in Hs. apply Z.ltb_ge in Hpos.
  unfold process_frame. munfold. cbn.
  take Ha. take Hs. take Hpos.
  rewrite lookup_insert_eq. cbn. rewrite Hctx. cbn.
  eexists. split; [reflexivity | ].
  unfold effect; cbn.
  repeat split; try (rewrite <- ?app_assoc; reflexivity); lia.
Qed.

Lemma flush_loop_null_sink (lib : Extern) (fuel : nat) (v : list Z) (s : St) :
  next_alloc lib s ≠ nullptr ->
  0 <= (next_sinkget lib s).1 ->
  buffersink_ctx (self s) = nullptr ->
  exists s',
    flush_loop lib (S fuel) v s = (Stop (BadDeref nullptr), s') /\
    effect s s'
      (<[next_alloc lib s := (next_sinkget lib s).2]> (frames (av s)))
      [Call_av_frame_alloc (next_alloc lib s);
       Call_av_buffersink_get_frame (buffersink_ctx (self s))
         (next_alloc lib s) (next_sinkget lib s).1]
      1 0 1.
Proof.
  intros Ha Hpos Hctx. pose proof (nonneg_not_no_frame_yet _ Hpos) as Hk.
  unfold next_alloc, next_sinkget, no_frame_yet in *.
  apply eqb_nullptr_false in Ha. apply Z.ltb_ge in Hpos.
  cbn [flush_loop]. munfold. cbn.
  take Ha. take Hk. take Hpos.
  rewrite lookup_insert_eq. cbn. rewrite Hctx. cbn.
  eexists. split; [reflexivity | ].
  unfold effect; cbn. rewrite !insert_insert_eq.
  repeat split; try (rewrite <- ?app_assoc; reflexivity); lia.
Qed.

(** Split on the path a call of [process_frame] takes from [s]; each case
    has the run [Hrun] and its effect [Heff] at hand. *)
Ltac process_frame_cases lib input s :=
  let s1 := fresh "s1" in
  destruct (Z.eq_dec (next_alloc lib s) nullptr) as [Hnull | Ha];
  [ destruct (process_frame_alloc_failure lib input s Hnull)
      as (s1 & Hrun & Heff)
  | destruct (Z.lt_ge_cases (next_srcadd lib s) 0) as [Hs | Hs];
    [ destruct (process_frame_submit_failure lib input s Ha Hs)
        as (s1 & Hrun & Heff)
    | destruct (Z.lt_ge_cases (next_sinkget lib s).1 0) as [Hk | Hk];
      [ destruct (no_frame_yet (next_sinkget lib s).1) eqn:Hy;
        [ destruct (process_frame_not_ready lib input s Ha Hs Hy)
            as (s1 & Hrun & Heff)
        | destruct (process_frame_retrieval_failure lib input s Ha Hs Hk Hy)
            as (s1 & Hrun & Heff) ]
      | destruct (Z.eq_dec (buffersink_ctx (self s)) nullptr) as [Hc | Hc];
        [ destruct (process_frame_null_sink lib input s Ha Hs Hk Hc)
            as (s1 & Hrun & Heff)
        | destruct (process_frame_produced lib input s Ha Hs Hk Hc)
            as (s1 & Hrun & Heff) ] ] ] ].

(** The same for one turn of the loop of [flush]. *)
Ltac flush_loop_cases lib fuel v s :=
  let s1 := fresh "s1" in
  destruct (Z.eq_dec (next_alloc lib s) nullptr) as [Hnull | Ha];
  [ destruct (flush_loop_enomem lib fuel v s Hnull) as (s1 & Hrun & Heff)
  | destruct (Z.lt_ge_cases (next_sinkget lib s).1 0) as [Hk | Hk];
    [ destruct (no_frame_yet (next_sinkget lib s).1) eqn:Hy;
      [ destruct (flush_loop_end lib fuel v s Ha Hy) as (s1 & Hrun & Heff)
      | destruct (flush_loop_fatal lib fuel v s Ha Hk Hy)
          as (s1 & Hrun & Heff) ]
    | destruct (Z.eq_dec (buffersink_ctx (self s)) nullptr) as [Hc | Hc];
      [ destruct (flush_loop_null_sink lib fuel v s Ha Hk Hc)
          as (s1 & Hrun & Heff)
      | destruct (flush_loop_step lib fuel v s Ha Hk Hc)
          as (s1 & Hrun & Heff) ] ] ].

(** ** process_frame: what it touches and how often it calls out *)

(** X1: process_frame reads and writes no frame but the container it
    allocates and the input frame it hands to the source: every other live
    frame is as it was, however the call ends. *)
Theorem process_frame_leaves_other_frames (lib : Extern) (input_frame : Z)
    (s : St) (q : Z) :
  q ≠ next_alloc lib s ->
  q ≠ input_frame ->
  frames (av (process_frame lib input_frame s).2) !! q = frames (av s) !! q.
Proof.
  intros Hq Hin.
  assert (Hq' : next_alloc lib s ≠ q) by congruence.
  process_frame_cases lib input_frame s;
    rewrite Hrun; cbn; destruct Heff as (_ & -> & _);
    rewrite ?lookup_delete_ne, ?lookup_insert_ne by exact Hq';
    unfold after_submit;
    rewrite ?take_frame_lookup_ne by exact Hin;
    rewrite ?lookup_insert_ne by exact Hq'; reflexivity.
Qed.

Lemma process_frame_leaves_other_frames_witness :
  frames (av (process_frame demo_lib 100 demo_busy).2) !! 200
    = frames (av demo_busy) !! 200 /\
  frames (av demo_busy) !! 200 = Some {| pts := 41; picture := 8 |}.
Proof.
  split; [ | reflexivity].
  apply (process_frame_leaves_other_frames demo_lib 100 demo_busy 200).
  - vm_compute. discriminate.
  - discriminate.
Defined.

(** X2: One call of process_frame allocates exactly one container, submits the
    input frame once unless that allocation failed, and asks the sink for a
    frame once, and only once, unless the allocation or the submission
    failed. *)
Theorem process_frame_call_budget (lib : Extern) (input_frame : Z) (s : St) :
  let s' := (process_frame lib input_frame s).2 in
  n_alloc (av s') = S (n_alloc (av s)) /\
  n_srcadd (av s') =
    (n_srcadd (av s)
     + (if (next_alloc lib s =? nullptr)%Z then 0 else 1))%nat /\
  n_sinkget (av s') =
    (n_sinkget (av s)
     + (if ((next_alloc lib s =? nullptr) || (next_srcadd lib s <? 0))%Z
        then 0 else 1))%nat.
Proof.
  intros s'. subst s'.
  process_frame_cases lib input_frame s;
    rewrite Hrun; cbn; destruct Heff as (_ & _ & _ & -> & -> & ->);
    try (rewrite Hnull; cbn; lia);
    rewrite (eqb_nullptr_false _ Ha); cbn;
    [ apply Z.ltb_lt in Hs | apply Z.ltb_ge in Hs | apply Z.ltb_ge in Hs
    | apply Z.ltb_ge in Hs | apply Z.ltb_ge in Hs ];
    rewrite Hs; lia.
Qed.

(** X3: On an initialised session process_frame writes to stderr exactly when
    it returns nullptr, and then a single message: returning a frame or the
    not-ready sentinel is silent. *)
Theorem process_frame_stderr_iff_nullptr (lib : Extern) (input_frame : Z)
    (s : St) :
  buffersink_ctx (self s) ≠ nullptr ->
  exists (r : Z) (s' : St) (calls : list Call),
    process_frame lib input_frame s = (Done r, s') /\
    trace (av s') = trace (av s) ++ calls /\
    (r = nullptr <-> existsb is_stderr calls = true) /\
    (length (List.filter is_stderr calls) <= 1)%nat.
Proof.
  intros Hctx.
  process_frame_cases lib input_frame s; try contradiction;
    destruct Heff as (_ & _ & Htr & _);
    eexists _, _, _; (split; [exact Hrun | split; [exact Htr | ]]);
    cbn; (split; [ | lia]).
  - split; reflexivity.
  - split; reflexivity.
  - split; [intros E; vm_compute in E; discriminate E | discriminate].
  - split; reflexivity.
  - split; [intros E; contradiction | discriminate].
Qed.

Lemma process_frame_stderr_iff_nullptr_witness :
  exists (r : Z) (s' : St) (calls : list Call),
    process_frame refusing_lib 100 demo_ready = (Done r, s') /\
    trace (av s') = trace (av demo_ready) ++ calls /\
    (r = nullptr <-> existsb is_stderr calls = true) /\
    (length (List.filter is_stderr calls) <= 1)%nat.
Proof.
  apply (process_frame_stderr_iff_nullptr refusing_lib 100 demo_ready).
  cbn. discriminate.
Defined.

(** X4: a call of process_frame that returns the not-ready sentinel leaves
    the set of live frames as it found it, the container it allocated being
    gone again, and leaves in every frame but the input frame, which the
    source has taken over, what the frame held. *)
Theorem process_frame_not_ready_restores_heap (lib : Extern)
    (input_frame : Z) (s s' : St) :
  allocator_sound lib ->
  frames (av s) !! next_alloc lib s = None ->
  process_frame lib input_frame s = (Done PTR_MINUS_ONE, s') ->
  dom (frames (av s')) = dom (frames (av s)) /\
  forall q : Z, q ≠ input_frame -> frames (av s') !! q = frames (av s) !! q.
Proof.
  intros Halloc Hfresh Hcall.
  assert (HM : PTR_MINUS_ONE ≠ nullptr) by apply PTR_MINUS_ONE_not_null.
  process_frame_cases lib input_frame s; rewrite Hrun in Hcall;
    try (injection Hcall as E _; congruence);
    try discriminate Hcall.
  - injection Hcall as <-. destruct Heff as (_ & -> & _).
    unfold after_submit. split.
    + rewrite dom_delete_L, take_frame_dom, dom_insert_L.
      apply not_elem_of_dom in Hfresh. apply set_eq. intros x.
      rewrite elem_of_difference, elem_of_union, elem_of_singleton.
      split; [intros [[Hx | Hx] Hne]; [contradiction | exact Hx] | ].
      intros Hx. split; [now right | ]. intros ->. contradiction.
    + intros q Hq. destruct (decide (q = next_alloc lib s)) as [-> | Hne].
      * now rewrite lookup_delete_eq, Hfresh.
      * rewrite lookup_delete_ne by congruence.
        rewrite take_frame_lookup_ne by exact Hq.
        now rewrite lookup_insert_ne by congruence.
  - injection Hcall as E _. exfalso.
    destruct (Halloc (n_alloc (av s))) as [H0 | Hv];
      fold (next_alloc lib s) in *; [contradiction | ].
    unfold valid_ptr in Hv. lia.
Qed.

Lemma allocator_sound_idle_lib : allocator_sound idle_lib.
Proof.
  intros n. unfold valid_ptr.
  destruct n as [| [| n]]; cbn;
    [right | right | left; destruct n; reflexivity];
    split; reflexivity.
Defined.

Lemma process_frame_not_ready_restores_heap_witness :
  dom (frames (av (process_frame idle_lib 100 demo_busy).2))
    = dom (frames (av demo_busy)) /\
  forall q : Z,
    q ≠ 100 ->
    frames (av (process_frame idle_lib 100 demo_busy).2) !! q
      = frames (av demo_busy) !! q.
Proof.
  apply (process_frame_not_ready_restores_heap idle_lib 100 demo_busy).
  - exact allocator_sound_idle_lib.
  - reflexivity.
  - vm_compute. reflexivity.
Defined.

(** ** The drain loop, whatever the library answers *)

Lemma allocated_between_none (lib : Extern) (s s' : St) :
  n_alloc (av s') = n_alloc (av s) -> allocated_between lib s s' = [].
Proof.
  intros E. unfold allocated_between. rewrite E, Nat.sub_diag. reflexivity.
Qed.

Lemma allocated_between_one (lib : Extern) (s s' : St) :
  n_alloc (av s') = (n_alloc (av s) + 1)%nat ->
  allocated_between lib s s' = [next_alloc lib s].
Proof.
  intros E. unfold allocated_between.
  replace (n_alloc (av s') - n_alloc (av s))%nat with 1%nat by lia.
  reflexivity.
Qed.

Lemma allocated_between_cons (lib : Extern) (s s1 s' : St) :
  n_alloc (av s1) = (n_alloc (av s) + 1)%nat ->
  (n_alloc (av s1) <= n_alloc (av s'))%nat ->
  allocated_between lib s s'
    = next_alloc lib s :: allocated_between lib s1 s'.
Proof.
  intros E Hle. unfold allocated_between.
  replace (n_alloc (av s') - n_alloc (av s))%nat
    with (S (n_alloc (av s') - n_alloc (av s1))) by lia.
  cbn [allocates seq map]. rewrite E, Nat.add_1_r. reflexivity.
Qed.

(** What holds of the loop of [flush] however it is left. *)
Lemma flush_loop_always (lib : Extern) (fuel : nat) :
  forall (v : list Z) (s s' : St) (res : Res (Z * list Z)),
    flush_loop lib fuel v s = (res, s') ->
    n_srcadd (av s') = n_srcadd (av s) /\
    (n_alloc (av s) <= n_alloc (av s'))%nat /\
    (forall q : Z,
       q ∉ allocated_between lib s s' ->
       frames (av s') !! q = frames (av s) !! q) /\
    (exists calls : list Call,
       trace (av s') = trace (av s) ++ calls /\
       existsb is_stderr calls = false).
Proof.
  induction fuel as [| fuel IH]; intros v s s' res Hcall.
  - cbn in Hcall. injection Hcall as <- <-.
    repeat split; auto. exists []. now rewrite app_nil_r.
  - flush_loop_cases lib fuel v s; rewrite Hrun in Hcall.
    + injection Hcall as <- <-.
      destruct Heff as (_ & Hfr & Htr & Hna & Hns & _).
      repeat split; try lia.
      * intros q _. now rewrite Hfr.
      * eexists. split; [exact Htr | reflexivity].
    + injection Hcall as <- <-.
      destruct Heff as (_ & Hfr & Htr & Hna & Hns & _).
      repeat split; try lia.
      * intros q Hq. rewrite (allocated_between_one _ _ _ Hna) in Hq.
        apply not_elem_of_cons in Hq as [Hq _].
        rewrite Hfr, lookup_delete_ne, lookup_insert_ne by congruence.
        reflexivity.
      * eexists. split; [exact Htr | reflexivity].
    + injection Hcall as <- <-.
      destruct Heff as (_ & Hfr & Htr & Hna & Hns & _).
      repeat split; try lia.
      * intros q Hq. rewrite (allocated_between_one _ _ _ Hna) in Hq.
        apply not_elem_of_cons in Hq as [Hq _].
        rewrite Hfr, lookup_delete_ne, lookup_insert_ne by congruence.
        reflexivity.
      * eexists. split; [exact Htr | reflexivity].
    + injection Hcall as <- <-.
      destruct Heff as (_ & Hfr & Htr & Hna & Hns & _).
      repeat split; try lia.
      * intros q Hq. rewrite (allocated_between_one _ _ _ Hna) in Hq.
        apply not_elem_of_cons in Hq as [Hq _].
        rewrite Hfr, lookup_insert_ne by congruence. reflexivity.
      * eexists. split; [exact Htr | reflexivity].
    + destruct Heff as (_ & Hfr & Htr & Hna & Hns & _).
      destruct (IH _ _ _ _ Hcall) as (Hns' & Hna' & Hother & calls & Htr' & Hq).
      repeat split; try lia.
      * intros q Hq0.
        rewrite (allocated_between_cons lib s s1 s' Hna Hna') in Hq0.
        apply not_elem_of_cons in Hq0 as [Hne Hq0].
        rewrite (Hother q Hq0), Hfr, lookup_insert_ne by congruence.
        reflexivity.
      * eexists. split; [rewrite Htr', Htr, <- app_assoc; reflexivity | ].
        exact Hq.
Qed.

(** What holds of the loop of [flush] when it returns. *)
Lemma flush_loop_returns (lib : Extern) (fuel : nat) :
  forall (v v' : list Z) (s s' : St) (r : Z),
    flush_loop lib fuel v s = (Done (r, v'), s') ->
    r <= 0 /\
    exists ps : list Z,
      v' = v ++ ps /\
      Forall (fun p => p ≠ nullptr) ps /\
      ps = allocates lib (n_alloc (av s)) (length ps) /\
      n_alloc (av s') = (n_alloc (av s) + length ps + 1)%nat /\
      (n_sinkget (av s) + length ps <= n_sinkget (av s'))%nat /\
      (n_sinkget (av s') <= n_sinkget (av s) + length ps + 1)%nat /\
      (forall p : Z,
         p ∈ allocated_between lib s s' ->
         p = nullptr \/ p ∈ v' \/ frames (av s') !! p = None).
Proof.
  induction fuel as [| fuel IH]; intros v v' s s' r Hcall.
  - cbn in Hcall. discriminate Hcall.
  - flush_loop_cases lib fuel v s; rewrite Hrun in Hcall.
    + injection Hcall as <- <- <-.
      destruct Heff as (_ & Hfr & _ & Hna & _ & Hnk).
      split; [discriminate | ]. exists []. rewrite app_nil_r. cbn [length].
      repeat split; auto; try lia.
      intros p Hp. rewrite (allocated_between_one _ _ _ Hna) in Hp.
      apply list_elem_of_singleton in Hp. left. congruence.
    + injection Hcall as <- <- <-.
      destruct Heff as (_ & Hfr & _ & Hna & _ & Hnk).
      split; [reflexivity | ]. exists []. rewrite app_nil_r. cbn [length].
      repeat split; auto; try lia.
      intros p Hp. rewrite (allocated_between_one _ _ _ Hna) in Hp.
      apply list_elem_of_singleton in Hp. subst p.
      right; right. rewrite Hfr. apply lookup_delete_eq.
    + injection Hcall as <- <- <-.
      destruct Heff as (_ & Hfr & _ & Hna & _ & Hnk).
      split; [lia | ]. exists []. rewrite app_nil_r. cbn [length].
      repeat split; auto; try lia.
      intros p Hp. rewrite (allocated_between_one _ _ _ Hna) in Hp.
      apply list_elem_of_singleton in Hp. subst p.
      right; right. rewrite Hfr. apply lookup_delete_eq.
    + discriminate Hcall.
    + destruct Heff as (_ & Hfr & _ & Hna & _ & Hnk).
      destruct (IH _ _ _ _ _ Hcall)
        as (Hr & ps & -> & Hall & Hps & Hna' & Hlo & Hhi & Hacc).
      split; [exact Hr | ]. exists (next_alloc lib s :: ps).
      cbn [length]. repeat split; try lia.
      * now rewrite <- app_assoc.
      * constructor; assumption.
      * cbn [allocates seq map]. f_equal.
        rewrite Hna, Nat.add_1_r in Hps. exact Hps.
      * intros p Hp.
        rewrite (allocated_between_cons lib s s1 s' Hna) in Hp by lia.
        apply elem_of_cons in Hp as [-> | Hp]; [ | now apply Hacc].
        right; left. rewrite <- app_assoc. apply elem_of_app. right.
        apply elem_of_cons. now left.
Qed.

(** ** flush, whatever the library answers *)

(** X7: Whenever flush returns, its code is 0 or negative, never a positive
    value the library answered; the vector is the old vector followed by
    the containers appended, none of which is null, and these are the
    containers of its first allocations, in the order they were made. *)
Theorem flush_only_appends (lib : Extern) (fuel : nat) (v v' : list Z)
    (s s' : St) (r : Z) :
  flush lib fuel v s = (Done (r, v'), s') ->
  r <= 0 /\
  exists ps : list Z,
    v' = v ++ ps /\
    Forall (fun p => p ≠ nullptr) ps /\
    ps = allocates lib (n_alloc (av s)) (length ps).
Proof.
  intros Hcall.
  destruct (Z.lt_ge_cases (next_srcadd lib s) 0) as [Hs | Hs].
  - destruct (flush_submit_failure lib fuel v s Hs) as (s1 & Hrun & _).
    rewrite Hrun in Hcall. injection Hcall as <- <- <-.
    split; [lia | ]. exists []. rewrite app_nil_r. repeat split; auto.
  - destruct (flush_enters_loop lib fuel v s Hs)
      as (s1 & Hrun & _ & _ & _ & Hna & _).
    rewrite Hrun in Hcall.
    destruct (flush_loop_returns lib fuel _ _ _ _ _ Hcall)
      as (Hr & ps & Hv & Hall & Hps & _).
    split; [exact Hr | ]. exists ps. rewrite Hna, Nat.add_0_r in Hps. auto.
Qed.

Lemma flush_only_appends_witness :
  0 <= 0 /\
  exists ps : list Z,
    [4096; 8192] = [] ++ ps /\
    Forall (fun p => p ≠ nullptr) ps /\
    ps = allocates demo_lib (n_alloc (av demo_ready)) (length ps).
Proof.
  apply (flush_only_appends demo_lib 5 [] [4096; 8192] demo_ready
           (flush demo_lib 5 [] demo_ready).2 0).
  vm_compute. reflexivity.
Defined.

(** X8: Whenever flush returns, every container it allocated is accounted for:
    the allocation had failed, or the container is in the vector handed
    back to the caller, or it has been freed. *)
Theorem flush_accounts_for_containers (lib : Extern) (fuel : nat)
    (v v' : list Z) (s s' : St) (r : Z) :
  flush lib fuel v s = (Done (r, v'), s') ->
  forall p : Z,
    p ∈ allocated_between lib s s' ->
    p = nullptr \/ p ∈ v' \/ frames (av s') !! p = None.
Proof.
  intros Hcall p Hp.
  destruct (Z.lt_ge_cases (next_srcadd lib s) 0) as [Hs | Hs].
  - destruct (flush_submit_failure lib fuel v s Hs)
      as (s1 & Hrun & _ & _ & _ & Hna & _).
    rewrite Hrun in Hcall. injection Hcall as <- <- <-.
    rewrite allocated_between_none in Hp by lia.
    apply elem_of_nil in Hp. contradiction.
  - destruct (flush_enters_loop lib fuel v s Hs)
      as (s1 & Hrun & _ & _ & _ & Hna & _).
    rewrite Hrun in Hcall.
    destruct (flush_loop_returns lib fuel _ _ _ _ _ Hcall)
      as (_ & ps & _ & _ & _ & _ & _ & _ & Hacc).
    apply Hacc. unfold allocated_between in *.
    rewrite Hna, Nat.add_0_r. exact Hp.
Qed.

Lemma flush_accounts_for_containers_witness :
  12288 = nullptr \/ 12288 ∈ [4096; 8192]
  \/ frames (av (flush broken_lib 5 [] demo_ready).2) !! 12288 = None.
Proof.
  apply (flush_accounts_for_containers broken_lib 5 [] [4096; 8192]
           demo_ready (flush broken_lib 5 [] demo_ready).2 (-22)).
  - vm_compute. reflexivity.
  - apply (bool_decide_unpack _). vm_compute. reflexivity.
Defined.

(** X9: A flush whose end marker is accepted and which returns has submitted to
    the source exactly once, has allocated exactly one container more than
    it appended, and has asked the sink for as many frames as it appended,
    or for one more. *)
Theorem flush_call_budget (lib : Extern) (fuel : nat) (v v' : list Z)
    (s s' : St) (r : Z) :
  0 <= next_srcadd lib s ->
  flush lib fuel v s = (Done (r, v'), s') ->
  let appended := (length v' - length v)%nat in
  n_srcadd (av s') = S (n_srcadd (av s)) /\
  n_alloc (av s') = (n_alloc (av s) + appended + 1)%nat /\
  (n_sinkget (av s) + appended <= n_sinkget (av s'))%nat /\
  (n_sinkget (av s') <= n_sinkget (av s) + appended + 1)%nat.
Proof.
  intros Hs Hcall appended. subst appended.
  destruct (flush_enters_loop lib fuel v s Hs)
    as (s1 & Hrun & _ & _ & _ & Hna & Hns & Hnk).
  rewrite Hrun in Hcall.
  destruct (flush_loop_always lib fuel _ _ _ _ Hcall) as (Hns' & _).
  destruct (flush_loop_returns lib fuel _ _ _ _ _ Hcall)
    as (_ & ps & -> & _ & _ & Hna' & Hlo & Hhi & _).
  rewrite length_app.
  replace (length v + length ps - length v)%nat with (length ps) by lia.
  repeat split; lia.
Qed.

Lemma flush_call_budget_witness :
  let s' := (flush demo_lib 5 [] demo_ready).2 in
  n_srcadd (av s') = S (n_srcadd (av demo_ready)) /\
  n_alloc (av s') = (n_alloc (av demo_ready) + 2 + 1)%nat /\
  (n_sinkget (av demo_ready) + 2 <= n_sinkget (av s'))%nat /\
  (n_sinkget (av s') <= n_sinkget (av demo_ready) + 2 + 1)%nat.
Proof.
  apply (flush_call_budget demo_lib 5 [] [4096; 8192] demo_ready
           (flush demo_lib 5 [] demo_ready).2 0).
  - cbn. lia.
  - vm_compute. reflexivity.
Defined.

(** X10: Once the end marker is accepted flush writes nothing to stderr, however
    the drain ends: a failed allocation and a sink error are returned
    without a message. *)
Theorem flush_drain_is_silent (lib : Extern) (fuel : nat) (v : list Z)
    (s : St) :
  0 <= next_srcadd lib s ->
  exists calls : list Call,
    trace (av (flush lib fuel v s).2) = trace (av s) ++ calls /\
    existsb is_stderr calls = false.
Proof.
  intros Hs.
  destruct (flush_enters_loop lib fuel v s Hs)
    as (s1 & Hrun & _ & _ & Htr & _).
  rewrite Hrun.
  destruct (flush_loop lib fuel v s1) as [res s'] eqn:Hcall.
  destruct (flush_loop_always lib fuel _ _ _ _ Hcall)
    as (_ & _ & _ & calls & Htr' & Hquiet).
  eexists. cbn. split; [rewrite Htr', Htr, <- app_assoc; reflexivity | ].
  exact Hquiet.
Qed.

Lemma flush_drain_is_silent_witness :
  exists calls : list Call,
    trace (av (flush broken_lib 5 [] demo_ready).2)
      = trace (av demo_ready) ++ calls /\
    existsb is_stderr calls = false.
Proof.
  apply (flush_drain_is_silent broken_lib 5 [] demo_ready).
  cbn. lia.
Defined.

(** X11: flush reads and writes no frame but the containers it allocates: every
    other live frame, such as one a call of process_frame returned before,
    is as it was, however flush ends. *)
Theorem flush_touches_only_its_containers (lib : Extern) (fuel : nat)
    (v : list Z) (s : St) (q : Z) :
  q ∉ allocated_between lib s (flush lib fuel v s).2 ->
  frames (av (flush lib fuel v s).2) !! q = frames (av s) !! q.
Proof.
  destruct (Z.lt_ge_cases (next_srcadd lib s) 0) as [Hs | Hs].
  - destruct (flush_submit_failure lib fuel v s Hs)
      as (s1 & Hrun & _ & Hfr & _).
    rewrite Hrun. cbn. intros _. now rewrite Hfr.
  - destruct (flush_enters_loop lib fuel v s Hs)
      as (s1 & Hrun & _ & Hfr & _ & Hna & _).
    rewrite Hrun.
    destruct (flush_loop lib fuel v s1) as [res s'] eqn:Hcall.
    destruct (flush_loop_always lib fuel _ _ _ _ Hcall)
      as (_ & _ & Hother & _).
    cbn. intros Hq. rewrite <- Hfr. apply Hother.
    unfold allocated_between in *. rewrite Hna, Nat.add_0_r. exact Hq.
Qed.

Lemma flush_touches_only_its_containers_witness :
  frames (av (flush demo_lib 5 [] demo_ready).2) !! 20480
    = frames (av demo_ready) !! 20480.
Proof.
  apply (flush_touches_only_its_containers demo_lib 5 [] demo_ready 20480).
  apply (bool_decide_unpack _). vm_compute. reflexivity.
Defined.

(** ** process_frame followed by flush *)

(** X13: When the pipeline holds f0 and then fs, a call of process_frame hands
    out f0 and the flush after it hands out fs: together they emit every
    frame, in order, each rescaled, and the frame process_frame returned is
    still intact after the flush. *)
Theorem process_frame_then_flush (lib : Extern) (input_frame : Z) (s : St)
    (f0 : AVFrame) (fs : list AVFrame) (fuel : nat) (v : list Z) :
  buffersink_ctx (self s) ≠ nullptr ->
  0 <= buffersrc_add_ans lib (n_srcadd (av s)) ->
  0 <= buffersrc_add_ans lib (S (n_srcadd (av s))) ->
  delivers lib (n_sinkget (av s)) (f0 :: fs) ->
  no_frame_yet
    (buffersink_get_ans lib (n_sinkget (av s) + S (length fs))%nat).1 = true ->
  alloc_ok lib (n_alloc (av s)) (S (S (length fs))) ->
  (length fs < fuel)%nat ->
  exists (p0 : Z) (s1 : St) (ps : list Z) (s2 : St),
    process_frame lib input_frame s = (Done p0, s1) /\
    flush lib fuel v s1 = (Done (0, v ++ ps), s2) /\
    p0 :: ps = allocates lib (n_alloc (av s)) (S (length fs)) /\
    holds_rescaled lib (self s) s2 (p0 :: ps) (f0 :: fs).
Proof.
  intros Hctx Hsrc0 Hsrc1 Hdel Hend Hok Hfuel.
  apply delivers_cons in Hdel as [[Hpos Hf0] Hdel].
  apply alloc_ok_S in Hok as (Ha & Hfresh0 & Hok).
  apply alloc_ok_last in Hok as (Hok & Hlast & Hfresh).
  destruct (process_frame_produced lib input_frame s Ha Hsrc0 Hpos Hctx)
    as (s1 & Hrun1 & Hself1 & Hfr1 & _ & Hna1 & Hns1 & Hnk1).
  rewrite Nat.add_1_r in Hna1, Hns1, Hnk1.
  assert (Hctx1 : buffersink_ctx (self s1) ≠ nullptr) by now rewrite Hself1.
  assert (Hs1 : 0 <= next_srcadd lib s1)
    by (unfold next_srcadd; now rewrite Hns1).
  destruct (flush_drains lib s1 fs Hctx1 Hs1) with (fuel := fuel) (v := v)
    as (s2 & Hrun2 & Hself2 & Hnew & _).
  { now rewrite Hnk1. }
  { now rewrite Hna1. }
  { rewrite Hnk1. now replace (S (n_sinkget (av s)) + length fs)%nat
      with (n_sinkget (av s) + S (length fs))%nat by lia. }
  { now rewrite Hna1. }
  { now rewrite Hna1. }
  { exact Hfuel. }
  rewrite Hna1, Hself1 in Hnew. rewrite Hna1 in Hrun2.
  exists (next_alloc lib s), s1,
    (allocates lib (S (n_alloc (av s))) (length fs)), s2.
  split; [exact Hrun1 | split; [exact Hrun2 | split; [reflexivity | ]]].
  destruct (flush_enters_loop lib fuel v s1 Hs1)
    as (s1' & Hrun' & _ & Hfr' & _ & Hna' & _).
  rewrite Hrun' in Hrun2. rewrite Nat.add_0_r in Hna'.
  destruct (flush_loop_always lib fuel _ _ _ _ Hrun2)
    as (_ & _ & Hother & _).
  destruct (flush_loop_returns lib fuel _ _ _ _ _ Hrun2)
    as (_ & ps' & Hv & _ & _ & Hna2 & _).
  apply app_inv_head in Hv. subst ps'.
  unfold allocates in Hna2 at 1. rewrite length_map, length_seq in Hna2.
  intros [| i] p f Hp Hf; cbn in Hp, Hf.
  - injection Hp as <-. injection Hf as <-.
    rewrite Hother, Hfr', Hfr1.
    + rewrite lookup_insert_eq. unfold next_sinkget. now rewrite Hf0.
    + unfold allocated_between. rewrite Hna2, Hna', Hna1.
      replace (S (n_alloc (av s)) + length fs + 1 - S (n_alloc (av s)))%nat
        with (S (length fs)) by lia.
      exact Hfresh0.
  - eapply Hnew; eassumption.
Qed.

Lemma process_frame_then_flush_witness :
  exists (p0 : Z) (s1 : St) (ps : list Z) (s2 : St),
    process_frame demo_lib 100 demo_ready = (Done p0, s1) /\
    flush demo_lib 5 [] s1 = (Done (0, [] ++ ps), s2) /\
    p0 :: ps = allocates demo_lib (n_alloc (av demo_ready))
                 (S (length [frame_b])) /\
    holds_rescaled demo_lib (self demo_ready) s2 (p0 :: ps)
      [frame_a; frame_b].
Proof.
  apply (process_frame_then_flush demo_lib 100 demo_ready frame_a [frame_b]
           5 []).
  - cbn. discriminate.
  - cbn. lia.
  - cbn. lia.
  - exact delivers_demo_lib.
  - vm_compute. reflexivity.
  - apply alloc_ok_demo_lib. cbn. lia.
  - cbn. lia.
Defined.

(** ** init and the configuration of the session *)

(** X15: However init ends, the target width and height, the shader path and the
    live frames are as they were.  When init returns, with success or with
    an error code, output_time_base is the time base of the encoder; when
    init is left by an exception output_time_base has not been assigned. *)
Theorem init_keeps_configuration (lib : Extern)
    (dec_ctx enc_ctx : AVCodecContext) (s : St) :
  let res := (init lib dec_ctx enc_ctx s).1 in
  let s' := (init lib dec_ctx enc_ctx s).2 in
  output_width (self s') = output_width (self s) /\
  output_height (self s') = output_height (self s) /\
  shader_path (self s') = shader_path (self s) /\
  frames (av s') = frames (av s) /\
  (forall code : Z,
     res = Done code -> output_time_base (self s') = time_base enc_ctx) /\
  (forall why : Abort,
     res = Stop why -> output_time_base (self s') = output_time_base (self s)).
Proof.
  intros res s'. subst res s'.
  destruct (fs_readable lib (shader_path (self s))) eqn:Hr.
  - rewrite (init_direct lib dec_ctx enc_ctx s Hr).
    destruct (build_ans lib dec_ctx (output_width (self s))
                (output_height (self s)) (shader_path (self s)))
      as [g a b d | code] eqn:Hb.
    + rewrite (init_libplacebo_ok lib _ _ _ _ _ _ _ _ _ Hb). cbn.
      repeat split; auto; discriminate.
    + rewrite (init_libplacebo_err lib _ _ _ _ _ _ Hb). cbn.
      repeat split; auto; discriminate.
  - destruct (fs_locate lib (fallback_path (self s))) as [found |] eqn:Hl.
    + rewrite (init_fallback lib dec_ctx enc_ctx s found Hr Hl).
      destruct (build_ans lib dec_ctx (output_width (self s))
                  (output_height (self s)) found)
        as [g a b d | code] eqn:Hb.
      * rewrite (init_libplacebo_ok lib _ _ _ _ _ _ _ _ _ Hb). cbn.
        repeat split; auto; discriminate.
      * rewrite (init_libplacebo_err lib _ _ _ _ _ _ Hb). cbn.
        repeat split; auto; discriminate.
    + rewrite (init_unresolved lib dec_ctx enc_ctx s Hr Hl). cbn.
      repeat split; auto; discriminate.
Qed.

Lemma init_keeps_configuration_witness :
  output_time_base (self (init demo_lib dec_demo enc_demo demo_new).2)
    = time_base enc_demo /\
  output_time_base (self (init missing_lib dec_demo enc_demo demo_new).2)
    = output_time_base (self demo_new).
Proof.
  split.
  - destruct (init_keeps_configuration demo_lib dec_demo enc_demo demo_new)
      as (_ & _ & _ & _ & Hdone & _).
    apply (Hdone 0). vm_compute. reflexivity.
  - destruct (init_keeps_configuration missing_lib dec_demo enc_demo demo_new)
      as (_ & _ & _ & _ & _ & Hstop).
    apply (Hstop (Exception "find_resource_file")). vm_compute. reflexivity.
Defined.

(** ** Equal time bases *)

Lemma av_rescale_q_same (a : Z) (q : AVRational) :
  valid_time_base q -> av_rescale_q a q q = a.
Proof.
  intros [Hn Hd]. unfold av_rescale_q.
  set (c := num q * den q).
  assert (Hc : 0 < c) by (subst c; nia).
  assert (Hhalf : c / 2 / c = 0).
  { apply Z.div_small. split; [apply Z.div_pos; lia | ].
    apply Z.div_lt_upper_bound; lia. }
  destruct (0 <=? a); rewrite Z.div_add_l, Hhalf by lia; lia.
Qed.

(** X6: When the sink's input link runs in the time base init captured, the
    frame process_frame returns is the frame the sink delivered, timestamp
    included: the rescale changes nothing. *)
Theorem process_frame_same_time_base (lib : Extern) (input_frame : Z)
    (s s' : St) (r : Z) :
  buffersink_ctx (self s) ≠ nullptr ->
  valid_time_base (output_time_base (self s)) ->
  link_time_base lib (buffersink_ctx (self s)) = output_time_base (self s) ->
  process_frame lib input_frame s = (Done r, s') ->
  r ≠ nullptr -> r ≠ PTR_MINUS_ONE ->
  frames (av s') !! r = Some (next_sinkget lib s).2.
Proof.
  intros Hctx Hvalid Htb Hcall Hr0 HrM.
  process_frame_cases lib input_frame s; try contradiction;
    rewrite Hrun in Hcall;
    try (injection Hcall as E _; congruence).
  injection Hcall as <- <-. destruct Heff as (_ & -> & _).
  rewrite lookup_insert_eq. unfold rescaled.
  rewrite Htb, av_rescale_q_same by exact Hvalid.
  now destruct (next_sinkget lib s).2.
Qed.

Lemma process_frame_same_time_base_witness :
  frames (av (process_frame same_tb_lib 100 demo_ready).2) !! 4096
    = Some (next_sinkget same_tb_lib demo_ready).2.
Proof.
  apply (process_frame_same_time_base same_tb_lib 100 demo_ready
           (process_frame same_tb_lib 100 demo_ready).2 4096).
  - cbn. discriminate.
  - split; reflexivity.
  - reflexivity.
  - vm_compute. reflexivity.
  - discriminate.
  - discriminate.
Defined.

(** ** What the results say about the library *)

Lemma flush_loop_zero (lib : Extern) (fuel : nat) :
  forall (v v' : list Z) (s s' : St),
    flush_loop lib fuel v s = (Done (0, v'), s') ->
    exists k : nat,
      length v' = (length v + k)%nat /\
      n_sinkget (av s') = (n_sinkget (av s) + k + 1)%nat /\
      (forall i : nat,
         (i < k)%nat ->
         0 <= (buffersink_get_ans lib (n_sinkget (av s) + i)%nat).1) /\
      no_frame_yet
        (buffersink_get_ans lib (n_sinkget (av s) + k)%nat).1 = true.
Proof.
  induction fuel as [| fuel IH]; intros v v' s s' Hcall.
  - cbn in Hcall. discriminate Hcall.
  - flush_loop_cases lib fuel v s; rewrite Hrun in Hcall.
    + injection Hcall as E _ _. vm_compute in E. discriminate E.
    + injection Hcall as <- <-. destruct Heff as (_ & _ & _ & _ & _ & Hnk).
      exists 0%nat. rewrite !Nat.add_0_r. repeat split; try lia.
      exact Hy.
    + injection Hcall as E _ _. lia.
    + discriminate Hcall.
    + destruct Heff as (_ & _ & _ & _ & _ & Hnk).
      destruct (IH _ _ _ _ Hcall) as (k & Hlen & Hnk' & Hpos & Hend).
      rewrite length_app in Hlen. cbn [length] in Hlen.
      rewrite Hnk in Hnk', Hpos, Hend.
      exists (S k). repeat split; try lia.
      * intros [| i] Hi.
        -- rewrite Nat.add_0_r. exact Hk.
        -- replace (n_sinkget (av s) + S i)%nat
             with (n_sinkget (av s) + 1 + i)%nat by lia.
           apply Hpos. lia.
      * replace (n_sinkget (av s) + S k)%nat
          with (n_sinkget (av s) + 1 + k)%nat by lia.
        exact Hend.
Qed.

(** X12: flush returns 0 only when the pipeline is really drained: the sink
    handed out one frame for each container appended and then, as the last
    thing it was asked, answered EAGAIN or the end of the stream. *)
Theorem flush_zero_means_drained (lib : Extern) (fuel : nat) (v v' : list Z)
    (s s' : St) :
  flush lib fuel v s = (Done (0, v'), s') ->
  exists k : nat,
    length v' = (length v + k)%nat /\
    n_sinkget (av s') = (n_sinkget (av s) + k + 1)%nat /\
    (forall i : nat,
       (i < k)%nat ->
       0 <= (buffersink_get_ans lib (n_sinkget (av s) + i)%nat).1) /\
    no_frame_yet (buffersink_get_ans lib (n_sinkget (av s) + k)%nat).1 = true.
Proof.
  intros Hcall.
  destruct (Z.lt_ge_cases (next_srcadd lib s) 0) as [Hs | Hs].
  - destruct (flush_submit_failure lib fuel v s Hs) as (s1 & Hrun & _).
    rewrite Hrun in Hcall. injection Hcall as E _ _. lia.
  - destruct (flush_enters_loop lib fuel v s Hs)
      as (s1 & Hrun & _ & _ & _ & _ & _ & Hnk).
    rewrite Hrun in Hcall. rewrite Nat.add_0_r in Hnk.
    destruct (flush_loop_zero lib fuel _ _ _ _ Hcall)
      as (k & Hlen & Hnk' & Hpos & Hend).
    rewrite Hnk in Hnk', Hpos, Hend. eauto.
Qed.

Lemma flush_zero_means_drained_witness :
  exists k : nat,
    length [4096; 8192] = (length (@nil Z) + k)%nat /\
    n_sinkget (av (flush demo_lib 5 [] demo_ready).2)
      = (n_sinkget (av demo_ready) + k + 1)%nat /\
    (forall i : nat,
       (i < k)%nat ->
       0 <= (buffersink_get_ans demo_lib
               (n_sinkget (av demo_ready) + i)%nat).1) /\
    no_frame_yet
      (buffersink_get_ans demo_lib
         (n_sinkget (av demo_ready) + k)%nat).1 = true.
Proof.
  apply (flush_zero_means_drained demo_lib 5 [] [4096; 8192] demo_ready
           (flush demo_lib 5 [] demo_ready).2).
  vm_compute. reflexivity.
Defined.

(** X5: On an initialised session with a sound allocator the value
    process_frame returns tells what the library answered: the sentinel
    means the frame was submitted and the sink answered EAGAIN or the end
    of the stream; a frame means the sink answered a non-negative code; and
    nullptr stands for three different failures, of the allocation, of the
    submission, or of the retrieval. *)
Theorem process_frame_result_decodes (lib : Extern) (input_frame : Z)
    (s s' : St) (r : Z) :
  allocator_sound lib ->
  buffersink_ctx (self s) ≠ nullptr ->
  process_frame lib input_frame s = (Done r, s') ->
  (r = PTR_MINUS_ONE <->
     next_alloc lib s ≠ nullptr /\ 0 <= next_srcadd lib s /\
     no_frame_yet (next_sinkget lib s).1 = true) /\
  (r = nullptr <->
     next_alloc lib s = nullptr \/
     (next_alloc lib s ≠ nullptr /\ next_srcadd lib s < 0) \/
     (next_alloc lib s ≠ nullptr /\ 0 <= next_srcadd lib s /\
      (next_sinkget lib s).1 < 0 /\
      no_frame_yet (next_sinkget lib s).1 = false)) /\
  (r ≠ nullptr /\ r ≠ PTR_MINUS_ONE <->
     next_alloc lib s ≠ nullptr /\ 0 <= next_srcadd lib s /\
     0 <= (next_sinkget lib s).1).
Proof.
  intros Halloc Hctx Hcall.
  assert (HM : PTR_MINUS_ONE ≠ nullptr) by apply PTR_MINUS_ONE_not_null.
  assert (Hp : next_alloc lib s ≠ nullptr ->
               next_alloc lib s ≠ PTR_MINUS_ONE).
  { intros Hne. destruct (Halloc (n_alloc (av s))) as [H0 | Hv];
      fold (next_alloc lib s) in *; [contradiction | ].
    unfold valid_ptr in Hv. lia. }
  pose proof (no_frame_yet_neg (next_sinkget lib s).1) as Hneg.
  process_frame_cases lib input_frame s; try contradiction;
    rewrite Hrun in Hcall; injection Hcall as <- <-;
    try specialize (Hp Ha);
    repeat split; intros;
    repeat match goal with
           | H : _ /\ _ |- _ => destruct H
           | H : _ \/ _ |- _ => destruct H
           end;
    first [ contradiction | congruence | lia | tauto
          | specialize (Hneg ltac:(assumption)); lia ].
Qed.

Lemma process_frame_result_decodes_witness :
  (PTR_MINUS_ONE = PTR_MINUS_ONE <->
     next_alloc idle_lib demo_ready ≠ nullptr /\
     0 <= next_srcadd idle_lib demo_ready /\
     no_frame_yet (next_sinkget idle_lib demo_ready).1 = true) /\
  (PTR_MINUS_ONE = nullptr <->
     next_alloc idle_lib demo_ready = nullptr \/
     (next_alloc idle_lib demo_ready ≠ nullptr /\
      next_srcadd idle_lib demo_ready < 0) \/
     (next_alloc idle_lib demo_ready ≠ nullptr /\
      0 <= next_srcadd idle_lib demo_ready /\
      (next_sinkget idle_lib demo_ready).1 < 0 /\
      no_frame_yet (next_sinkget idle_lib demo_ready).1 = false)) /\
  (PTR_MINUS_ONE ≠ nullptr /\ PTR_MINUS_ONE ≠ PTR_MINUS_ONE <->
     next_alloc idle_lib demo_ready ≠ nullptr /\
     0 <= next_srcadd idle_lib demo_ready /\
     0 <= (next_sinkget idle_lib demo_ready).1).
Proof.
  apply (process_frame_result_decodes idle_lib 100 demo_ready
           (process_frame idle_lib 100 demo_ready).2 PTR_MINUS_ONE).
  - exact allocator_sound_idle_lib.
  - cbn. discriminate.
  - vm_compute. reflexivity.
Defined.

(** ** The input frame once the source has accepted it *)

(** When the submission is accepted, the caller's input frame holds what
    the source left in it, however the call goes on. *)
Lemma process_frame_input_taken (lib : Extern) (input_frame : Z) (s : St)
    (f : AVFrame) :
  input_frame ≠ nullptr ->
  input_frame ≠ next_alloc lib s ->
  next_alloc lib s ≠ nullptr ->
  0 <= next_srcadd lib s ->
  frames (av s) !! input_frame = Some f ->
  frames (av (process_frame lib input_frame s).2) !! input_frame
    = Some (buffersrc_add_leaves lib (n_srcadd (av s)) f).
Proof.
  intros Hin Hne Hp Hsrc Hf.
  assert (Hne' : next_alloc lib s ≠ input_frame) by congruence.
  assert (Htaken : after_submit lib input_frame s !! input_frame
                   = Some (buffersrc_add_leaves lib (n_srcadd (av s)) f)).
  { unfold after_submit, take_frame. rewrite (eqb_nullptr_false _ Hin).
    rewrite lookup_alter_eq, lookup_insert_ne by exact Hne'.
    now rewrite Hf. }
  process_frame_cases lib input_frame s; try contradiction; try lia;
    rewrite Hrun; cbn; destruct Heff as (_ & -> & _);
    rewrite ?lookup_delete_ne, ?lookup_insert_ne by exact Hne';
    exact Htaken.
Qed.
